(** * Twilio Audio Downloader MCP server: credential routing, content-type
      resolution, audio fetch and configuration report

    Shallow embedding of [src/twilio_audio_downloader_mcp/server.py].

    Conventions of the embedding.
    - A Python [str] is a [string] whose characters are read as code points
      below 256; [bytes] is a [list byte].
    - A Python [dict] is an association list in insertion order: assigning to
      a key that is present replaces its value in place, assigning to a new
      key appends.
    - A Python exception is a value of [exn]; code that may raise returns
      [res], and the tool function runs in the monad [M], which also records
      every call of [requests.get].
    - Calls of [logger] write to the operational log only and never change a
      returned value; they are left out.
    - What the libraries decide outside this repository (the validation of a
      bracketed host by [urllib], the URL validation of [pydantic], the HTTP
      exchange of [requests]) is a variable of the section [Server]. *)

From Stdlib Require Import Bool List NArith ZArith Lia.
From Stdlib.Strings Require Import Ascii String Byte.
Import ListNotations.
Local Open Scope string_scope.

(** ** Python string built-ins used by the server *)
Module PyStr.

Definition ord (c : ascii) : N := N_of_ascii c.
Definition chr (n : N) : ascii := ascii_of_N n.

Definition between (lo hi n : N) : bool := ((lo <=? n) && (n <=? hi))%N.

(** Code points that [str.lower] changes: A-Z and the Latin-1 capitals
    (0xC0-0xDE without the multiplication sign 0xD7). *)
Definition is_upper (c : ascii) : bool :=
  between 65 90 (ord c) || (between 192 222 (ord c) && negb (ord c =? 215)%N).

Definition lower_char (c : ascii) : ascii :=
  if is_upper c then chr (ord c + 32) else c.

(** [s.lower()] *)
Fixpoint lower (s : string) : string :=
  match s with
  | EmptyString => EmptyString
  | String c s' => String (lower_char c) (lower s')
  end.

(** [c.isspace()] on code points below 256. *)
Definition isspace (c : ascii) : bool :=
  between 9 13 (ord c) || between 28 32 (ord c)
  || (ord c =? 133)%N || (ord c =? 160)%N.

Definition is_empty (s : string) : bool :=
  match s with EmptyString => true | _ => false end.

Fixpoint lstrip_by (p : ascii -> bool) (s : string) : string :=
  match s with
  | EmptyString => EmptyString
  | String c s' => if p c then lstrip_by p s' else s
  end.

Fixpoint rstrip_by (p : ascii -> bool) (s : string) : string :=
  match s with
  | EmptyString => EmptyString
  | String c s' =>
      let r := rstrip_by p s' in
      if p c && is_empty r then EmptyString else String c r
  end.

(** [s.strip()] *)
Definition strip (s : string) : string := lstrip_by isspace (rstrip_by isspace s).

(** [s.startswith(p)] *)
Definition startswith (s p : string) : bool := String.prefix p s.

(** [needle in hay] *)
Fixpoint contains (needle hay : string) : bool :=
  String.prefix needle hay
  || match hay with
     | EmptyString => false
     | String _ hay' => contains needle hay'
     end.

(** [c in s] for a single character. *)
Fixpoint has_char (c : ascii) (s : string) : bool :=
  match s with
  | EmptyString => false
  | String a s' => Ascii.eqb a c || has_char c s'
  end.

(** [s.split(c, 1)] when [c in s]: the text before and after the first [c];
    [None] when [c] does not occur. *)
Fixpoint partition (c : ascii) (s : string) : option (string * string) :=
  match s with
  | EmptyString => None
  | String a s' =>
      if Ascii.eqb a c then Some (EmptyString, s')
      else match partition c s' with
           | Some (l, r) => Some (String a l, r)
           | None => None
           end
  end.

(** The text up to and after the last [c]; [None] when [c] does not occur. *)
Fixpoint rpartition (c : ascii) (s : string) : option (string * string) :=
  match s with
  | EmptyString => None
  | String a s' =>
      match rpartition c s' with
      | Some (l, r) => Some (String a l, r)
      | None => if Ascii.eqb a c then Some (EmptyString, s') else None
      end
  end.

(** [s.split(c)] *)
Fixpoint split (c : ascii) (s : string) : list string :=
  match s with
  | EmptyString => [EmptyString]
  | String a s' =>
      if Ascii.eqb a c then EmptyString :: split c s'
      else match split c s' with
           | h :: t => String a h :: t
           | [] => [String a EmptyString]
           end
  end.

(** [s.replace(c, "")] for every [c] that satisfies [p]. *)
Fixpoint remove_chars (p : ascii -> bool) (s : string) : string :=
  match s with
  | EmptyString => EmptyString
  | String a s' => if p a then remove_chars p s' else String a (remove_chars p s')
  end.

Fixpoint forallb_str (p : ascii -> bool) (s : string) : bool :=
  match s with
  | EmptyString => true
  | String a s' => p a && forallb_str p s'
  end.

(** [s[:2]] *)
Definition take2 (s : string) : string :=
  match s with
  | String a (String b _) => String a (String b EmptyString)
  | _ => s
  end.

Definition drop2 (s : string) : string :=
  match s with
  | String _ (String _ r) => r
  | _ => EmptyString
  end.

(** [str(n)] for a non-negative integer. *)
Fixpoint digits (fuel : nat) (n : N) (acc : string) : string :=
  match fuel with
  | O => acc
  | S f =>
      let acc' := String (chr (48 + n mod 10)) acc in
      if (n <? 10)%N then acc' else digits f (n / 10) acc'
  end.

Definition str_of_N (n : N) : string := digits (S (N.to_nat (N.log2 n))) n EmptyString.

Definition str_of_Z (z : Z) : string :=
  if (z <? 0)%Z then String "-" (str_of_N (Z.to_N (- z))) else str_of_N (Z.to_N z).

End PyStr.

(** ** Python dictionaries with string keys *)
Module PyDict.
Section Dict.
Context {V : Type}.

Definition dict := list (string * V).

Fixpoint get (d : dict) (k : string) : option V :=
  match d with
  | [] => None
  | (k', v) :: d' => if String.eqb k' k then Some v else get d' k
  end.

(** [k in d] *)
Definition mem (d : dict) (k : string) : bool :=
  match get d k with Some _ => true | None => false end.

(** [d[k] = v] *)
Fixpoint set (d : dict) (k : string) (v : V) : dict :=
  match d with
  | [] => [(k, v)]
  | (k', v') :: d' =>
      if String.eqb k' k then (k', v) :: d' else (k', v') :: set d' k v
  end.

(** [list(d.keys())] *)
Definition keys (d : dict) : list string := map fst d.
End Dict.
Arguments dict : clear implicits.
End PyDict.

(** ** [base64.b64encode] (RFC 4648, standard alphabet, with padding) *)
Module Base64.

Definition alphabet : string :=
  "ABCDEFGHIJKLMNOPQRSTUVWXYZabcdefghijklmnopqrstuvwxyz0123456789+/".

Definition sextet (n : N) : ascii :=
  match String.get (N.to_nat n) alphabet with
  | Some c => c
  | None => "="%char
  end.

Definition pad : ascii := "="%char.

Fixpoint b64encode (data : list byte) : string :=
  match data with
  | [] => EmptyString
  | [a] =>
      let x := Byte.to_N a in
      String (sextet (N.shiftr x 2))
        (String (sextet (N.shiftl (N.land x 3) 4))
           (String pad (String pad EmptyString)))
  | [a; b] =>
      let x := Byte.to_N a in
      let y := Byte.to_N b in
      String (sextet (N.shiftr x 2))
        (String (sextet (N.lor (N.shiftl (N.land x 3) 4) (N.shiftr y 4)))
           (String (sextet (N.shiftl (N.land y 15) 2))
              (String pad EmptyString)))
  | a :: b :: c :: rest =>
      let x := Byte.to_N a in
      let y := Byte.to_N b in
      let z := Byte.to_N c in
      String (sextet (N.shiftr x 2))
        (String (sextet (N.lor (N.shiftl (N.land x 3) 4) (N.shiftr y 4)))
           (String (sextet (N.lor (N.shiftl (N.land y 15) 2) (N.shiftr z 6)))
              (String (sextet (N.land z 63)) (b64encode rest))))
  end.

End Base64.

(** ** Values, exceptions and effects *)

(** The values the two tools return ([Dict[str, Any]]). [VUrl] is a
    validated [pydantic] URL object. *)
#[warnings="-register-all"]
Inductive pyval : Type :=
| VNone
| VBool (b : bool)
| VInt (z : Z)
| VStr (s : string)
| VUrl (s : string)
| VList (l : list pyval)
| VDict (d : list (string * pyval)).

(** Exceptions, by the [except] clause that catches them. *)
Inductive exn : Type :=
| ValueError (msg : string)
| KeyError (msg : string)
| RequestException (msg : string)
| OtherException (msg : string).

(** [str(e)] as the handlers format it. *)
Definition exn_str (e : exn) : string :=
  match e with
  | ValueError m | KeyError m | RequestException m | OtherException m => m
  end.

Definition is_request_exception (e : exn) : bool :=
  match e with RequestException _ => true | _ => false end.

Inductive res (A : Type) : Type :=
| Ok (a : A)
| Raise (e : exn).
Arguments Ok {A} a.
Arguments Raise {A} e.

(** One call [requests.get(url, auth=auth, stream=stream, timeout=timeout)]. *)
Record Request : Type := mkRequest {
  req_url : string;
  req_auth : option (string * string);
  req_stream : bool;
  req_timeout : Z
}.

(** What [requests] hands back: the status line, the headers (a
    case-insensitive dictionary) and the body as [iter_content] yields it,
    chunk after chunk, possibly cut short by an exception. *)
Record Response : Type := mkResponse {
  status_code : Z;
  reason : string;
  resp_url : string;
  headers : PyDict.dict string;
  chunks : list (list byte);
  stream_exn : option exn
}.

(** Computations that may raise and that record the HTTP requests they issue. *)
Definition M (A : Type) : Type := res A * list Request.

Definition ret {A} (a : A) : M A := (Ok a, []).
Definition raise {A} (e : exn) : M A := (Raise e, []).
Definition lift {A} (r : res A) : M A := (r, []).

Definition bind {A B} (m : M A) (f : A -> M B) : M B :=
  match m with
  | (Ok a, t) => let '(r, t') := f a in (r, (t ++ t')%list)
  | (Raise e, t) => (Raise e, t)
  end.

(** [try: m except Exception as e: h(e)] *)
Definition try_except {A} (m : M A) (h : exn -> M A) : M A :=
  match m with
  | (Ok a, t) => (Ok a, t)
  | (Raise e, t) => let '(r, t') := h e in (r, (t ++ t')%list)
  end.

Notation "x <- m ;; k" := (bind m (fun x => k))
  (at level 61, m at next level, right associativity).
Notation "m ;;; k" := (bind m (fun _ => k))
  (at level 61, right associativity).

(** ** Configuration *)

(** [class TwilioConfig(BaseSettings)]: the fields with their defaults. An
    entry of [auth_credentials] is the dictionary with the keys [username],
    [password] and [base_url] that [_load_auth_from_env] stores. *)
Record TwilioConfig : Type := mkTwilioConfig {
  host : string;
  port : Z;
  log_level : string;
  twilio_account_sid : string;
  twilio_auth_token : string;
  twilio_base_url : string;
  auth_credentials : PyDict.dict (PyDict.dict string)
}.

Definition default_config : TwilioConfig :=
  {| host := "localhost"; port := 8080; log_level := "INFO";
     twilio_account_sid := ""; twilio_auth_token := "";
     twilio_base_url := "https://api.twilio.com";
     auth_credentials := [] |}.

Definition set_auth_credentials (self : TwilioConfig)
    (d : PyDict.dict (PyDict.dict string)) : TwilioConfig :=
  {| host := host self; port := port self; log_level := log_level self;
     twilio_account_sid := twilio_account_sid self;
     twilio_auth_token := twilio_auth_token self;
     twilio_base_url := twilio_base_url self;
     auth_credentials := d |}.

(** Truth value of a [str]. *)
Definition truthy (s : string) : bool := negb (PyStr.is_empty s).

(** [class AudioDownloadResponse(BaseModel)] after [.dict()]. *)
Definition AudioDownloadResponse (success : bool) (data : option string)
    (filename content_type : string) (size_bytes : Z) (error_message : string)
    : pyval :=
  VDict [("success", VBool success);
         ("data", match data with Some d => VStr d | None => VNone end);
         ("filename", VStr filename);
         ("content_type", VStr content_type);
         ("size_bytes", VInt size_bytes);
         ("error_message", VStr error_message)].

(** [AudioDownloadResponse(success=False, error_message=msg).dict()] *)
Definition failure (error_msg : string) : pyval :=
  AudioDownloadResponse false None "" "" 0 error_msg.

(** ** Content type to file extension *)

Definition extension_map : PyDict.dict string :=
  [("audio/wav", ".wav");
   ("audio/x-wav", ".wav");
   ("audio/wave", ".wav");
   ("audio/mpeg", ".mp3");
   ("audio/mp3", ".mp3");
   ("audio/mp4", ".m4a");
   ("audio/m4a", ".m4a");
   ("audio/aac", ".aac");
   ("audio/ogg", ".ogg");
   ("audio/flac", ".flac");
   ("audio/webm", ".webm");
   ("audio/3gpp", ".3gp");
   ("audio/amr", ".amr")].

(** [content_type.lower().split(';')[0].strip()] *)
Definition normalize_content_type (content_type : string) : string :=
  PyStr.strip (hd EmptyString (PyStr.split ";" (PyStr.lower content_type))).

(** The normalisation in the order the specification words it: drop the
    parameters after the first semicolon, trim, then lowercase. *)
Definition spec_normalize (content_type : string) : string :=
  PyStr.lower (PyStr.strip (hd EmptyString (PyStr.split ";" content_type))).

Definition get_file_extension_from_content_type (content_type : string) : string :=
  match PyDict.get extension_map (normalize_content_type content_type) with
  | Some ext => ext
  | None => ".bin"
  end.

(** ** Reading a base64 text back (RFC 4648), to state what the blob holds *)

(** The position of a character in the alphabet. *)
Fixpoint b64_index_from (c : ascii) (s : string) (i : N) : option N :=
  match s with
  | EmptyString => None
  | String a s' => if Ascii.eqb a c then Some i else b64_index_from c s' (i + 1)
  end.

Definition b64_index (c : ascii) : option N := b64_index_from c Base64.alphabet 0.

Definition b64_byte (n : N) : option byte := Byte.of_N n.

(** One group of four characters: three bytes, or two or one before padding. *)
Definition b64decode_group (c1 c2 c3 c4 : ascii) : option (list byte) :=
  match b64_index c1, b64_index c2 with
  | Some n1, Some n2 =>
      match b64_byte (N.lor (N.shiftl n1 2) (N.shiftr n2 4)) with
      | None => None
      | Some b1 =>
          if Ascii.eqb c3 Base64.pad then
            if Ascii.eqb c4 Base64.pad then Some [b1] else None
          else
            match b64_index c3 with
            | None => None
            | Some n3 =>
                match b64_byte (N.lor (N.shiftl (N.land n2 15) 4) (N.shiftr n3 2)) with
                | None => None
                | Some b2 =>
                    if Ascii.eqb c4 Base64.pad then Some [b1; b2]
                    else
                      match b64_index c4 with
                      | None => None
                      | Some n4 =>
                          match b64_byte (N.lor (N.shiftl (N.land n3 3) 6) n4) with
                          | None => None
                          | Some b3 => Some [b1; b2; b3]
                          end
                      end
                end
            end
      end
  | _, _ => None
  end.

(** The bytes a padded base64 text stands for; [None] when it is not one. *)
Fixpoint b64decode (s : string) : option (list byte) :=
  match s with
  | EmptyString => Some []
  | String c1 (String c2 (String c3 (String c4 rest))) =>
      match b64decode_group c1 c2 c3 c4 with
      | None => None
      | Some bs =>
          if Ascii.eqb c4 Base64.pad then
            match rest with EmptyString => Some bs | _ => None end
          else
            match b64decode rest with
            | Some tl => Some (bs ++ tl)%list
            | None => None
            end
      end
  | _ => None
  end.

(** ** Remote sides that fail, for closed instances *)
Module Faults.

Definition refuse (e : exn) : Request -> res Response := fun _ => Raise e.

Definition answer (r : Response) : Request -> res Response := fun _ => Ok r.

Definition broken_stream (e : exn) : Response :=
  {| status_code := 200; reason := "OK";
     resp_url := "https://example.com/a.mp3";
     headers := [("Content-Type", "audio/mpeg")];
     chunks := [[x01; x02]]; stream_exn := Some e |}.

Definition bare_response : Response :=
  {| status_code := 200; reason := "OK";
     resp_url := "https://example.com/a";
     headers := [("Content-Length", "3")];
     chunks := [[x52; x49; x46]]; stream_exn := None |}.

End Faults.

(** ** Observations on returned values *)

(** [v[k]] on a returned dictionary, [None] when the key is absent. *)
Definition field (v : pyval) (k : string) : option pyval :=
  match v with
  | VDict d => PyDict.get d k
  | _ => None
  end.


(** ** Sample worlds and configurations, for closed instances *)
Module Sample.

Definition check_ok : string -> res unit := fun _ => Ok tt.
Definition file_url_ok : string -> string + string := fun s => inl s.

Definition response (status : Z) (why : string) (body : list (list byte)) : Response :=
  {| status_code := status; reason := why;
     resp_url := "https://api.twilio.com/rec/RE1";
     headers := [("Content-Type", "audio/wav")];
     chunks := body; stream_exn := None |}.

Definition serve (r : Response) : Request -> res Response := fun _ => Ok r.

Definition twilio_config : TwilioConfig :=
  {| host := "localhost"; port := 8080; log_level := "INFO";
     twilio_account_sid := "AC123"; twilio_auth_token := "tok456";
     twilio_base_url := "https://api.twilio.com";
     auth_credentials :=
       [("sub.twilio.com",
         [("username", "other"); ("password", "pw"); ("base_url", "https://sub.twilio.com")])] |}.

Definition other_config : TwilioConfig :=
  {| host := "localhost"; port := 8080; log_level := "INFO";
     twilio_account_sid := "AC999"; twilio_auth_token := "zzz";
     twilio_base_url := "https://api.twilio.com";
     auth_credentials :=
       [("sub.twilio.com",
         [("username", "someone"); ("password", "else"); ("base_url", "https://sub.twilio.com")])] |}.

Definition environ : list (string * string) :=
  [("AUTH_X", "https://example.com|bob:secret"); ("AUTH_Y", "no-separator")].

End Sample.

(** ** The server *)
Section Server.

(** [urllib.parse._check_bracketed_netloc]: the check of a host written in
    brackets, which raises [ValueError] or returns nothing. *)
Variable check_bracketed_netloc : string -> res unit.

(** [pydantic.FileUrl(s)]: the validated URL ([inl]), or the message of the
    [ValidationError] it raises ([inr]). *)
Variable FileUrl : string -> string + string.

(** [requests.get]: the exchange with the remote host. *)
Variable requests_get : Request -> res Response.

(** *** [urllib.parse.urlparse] on [str] *)

Record ParseResult : Type := mkParseResult {
  scheme : string;
  netloc : string;
  path : string;
  params : string;
  query : string;
  fragment : string
}.

Definition c0_control_or_space (c : ascii) : bool := (PyStr.ord c <=? 32)%N.

(** Tab, carriage return and line feed. *)
Definition unsafe_url_byte (c : ascii) : bool :=
  (PyStr.ord c =? 9)%N || (PyStr.ord c =? 13)%N || (PyStr.ord c =? 10)%N.

Definition ascii_alpha (c : ascii) : bool :=
  PyStr.between 65 90 (PyStr.ord c) || PyStr.between 97 122 (PyStr.ord c).

Definition scheme_char (c : ascii) : bool :=
  ascii_alpha c || PyStr.between 48 57 (PyStr.ord c)
  || Ascii.eqb c "+" || Ascii.eqb c "-" || Ascii.eqb c ".".

Definition uses_params : list string :=
  [""; "ftp"; "hdl"; "prospero"; "http"; "imap"; "https"; "shttp"; "rtsp";
   "rtspu"; "sip"; "sips"; "mms"; "sftp"; "tel"].

(** The scheme, when the text before the first colon is one, and the rest. *)
Definition split_scheme (url : string) : string * string :=
  match PyStr.partition ":" url with
  | Some (String c0 _ as pre, post) =>
      if ascii_alpha c0 && PyStr.forallb_str scheme_char pre
      then (PyStr.lower pre, post)
      else (EmptyString, url)
  | _ => (EmptyString, url)
  end.

Definition netloc_delim (c : ascii) : bool :=
  Ascii.eqb c "/" || Ascii.eqb c "?" || Ascii.eqb c "#".

(** [_splitnetloc(url, 0)] on the text after the two slashes. *)
Fixpoint splitnetloc (url : string) : string * string :=
  match url with
  | EmptyString => (EmptyString, EmptyString)
  | String c url' =>
      if netloc_delim c then (EmptyString, url)
      else let '(d, r) := splitnetloc url' in (String c d, r)
  end.

Definition check_brackets (nl : string) : res unit :=
  let ob := PyStr.has_char "[" nl in
  let cb := PyStr.has_char "]" nl in
  if (ob && negb cb) || (cb && negb ob) then Raise (ValueError "Invalid IPv6 URL")
  else if ob && cb then check_bracketed_netloc nl
  else Ok tt.

(** [before, after = url.split(c, 1)] when [c in url] *)
Definition cut (c : ascii) (url : string) : string * string :=
  match PyStr.partition c url with
  | Some (l, r) => (l, r)
  | None => (url, EmptyString)
  end.

(** [urlsplit]. [_checknetloc] only acts on characters whose NFKC form
    holds one of [/?#@:]; there is none below code point 256. *)
Definition urlsplit (url0 : string) : res (string * string * string * string * string) :=
  let url1 := PyStr.lstrip_by c0_control_or_space url0 in
  let url2 := PyStr.remove_chars unsafe_url_byte url1 in
  let '(sch, url3) := split_scheme url2 in
  let '(chk, nl, url4) :=
    if String.eqb (PyStr.take2 url3) "//"
    then let '(nl, rest) := splitnetloc (PyStr.drop2 url3) in
         (check_brackets nl, nl, rest)
    else (Ok tt, EmptyString, url3) in
  match chk with
  | Raise e => Raise e
  | Ok _ =>
      let '(url5, frag) := cut "#" url4 in
      let '(url6, qry) := cut "?" url5 in
      Ok (sch, nl, url6, qry, frag)
  end.

(** [_splitparams(url)] when [';' in url] *)
Definition splitparams (url : string) : string * string :=
  match PyStr.rpartition "/" url with
  | Some (l, r) =>
      match PyStr.partition ";" r with
      | Some (a, b) => (l ++ String "/" a, b)
      | None => (url, EmptyString)
      end
  | None => cut ";" url
  end.

Definition urlparse (url : string) : res ParseResult :=
  match urlsplit url with
  | Raise e => Raise e
  | Ok (sch, nl, u, qry, frag) =>
      let '(p, prm) :=
        if existsb (String.eqb sch) uses_params && PyStr.has_char ";" u
        then splitparams u
        else (u, EmptyString) in
      Ok (mkParseResult sch nl p prm qry frag)
  end.

(** *** [TwilioConfig._load_auth_from_env] *)

(** The body of the loop, for one item of [os.environ.items()]. *)
Definition load_auth_entry (self : TwilioConfig) (item : string * string)
    : res TwilioConfig :=
  let '(key, value) := item in
  if PyStr.startswith key "AUTH_" then
    match PyStr.partition "|" value with
    | Some (base_url_part, auth_part) =>
        match PyStr.partition ":" auth_part with
        | Some (username, password) =>
            match urlparse base_url_part with
            | Raise e => Raise e
            | Ok parsed_base =>
                if truthy (netloc parsed_base) then
                  Ok (set_auth_credentials self
                        (PyDict.set (auth_credentials self)
                           (PyStr.lower (netloc parsed_base))
                           [("username", username);
                            ("password", password);
                            ("base_url", base_url_part)]))
                else Ok self
            end
        | None => Ok self
        end
    | None => Ok self
    end
  else Ok self.

Fixpoint load_auth_from_env (environ : list (string * string))
    (self : TwilioConfig) : res TwilioConfig :=
  match environ with
  | [] => Ok self
  | item :: environ' =>
      match load_auth_entry self item with
      | Raise e => Raise e
      | Ok self' => load_auth_from_env environ' self'
      end
  end.

(** [cred[k]] *)
Definition subscript (cred : PyDict.dict string) (k : string) : res string :=
  match PyDict.get cred k with
  | Some v => Ok v
  | None => Raise (KeyError (String "'" k ++ "'"))
  end.

(** *** [get_auth_for_url] *)
Definition get_auth_for_url (config : TwilioConfig) (url : string)
    : res (option (string * string)) :=
  match urlparse url with
  | Raise e => Raise e
  | Ok parsed =>
      let netloc := PyStr.lower (netloc parsed) in
      if PyStr.contains "twilio.com" netloc
         && truthy (twilio_account_sid config)
         && truthy (twilio_auth_token config)
      then Ok (Some (twilio_account_sid config, twilio_auth_token config))
      else
        match PyDict.get (auth_credentials config) netloc with
        | Some cred =>
            match subscript cred "username" with
            | Raise e => Raise e
            | Ok u =>
                match subscript cred "password" with
                | Raise e => Raise e
                | Ok p => Ok (Some (u, p))
                end
            end
        | None => Ok None
        end
  end.

(** *** [download_twilio_audio] *)

(** [requests.get(url, auth=auth, stream=True, timeout=30)] *)
Definition http_get (url : string) (auth : option (string * string)) : M Response :=
  let rq := mkRequest url auth true 30 in
  (requests_get rq, [rq]).

(** [response.raise_for_status()] *)
Definition raise_for_status (response : Response) : res unit :=
  let st := status_code response in
  let tail := ": " ++ reason response ++ " for url: " ++ resp_url response in
  if ((400 <=? st) && (st <? 500))%Z then
    Raise (RequestException (PyStr.str_of_Z st ++ " Client Error" ++ tail))
  else if ((500 <=? st) && (st <? 600))%Z then
    Raise (RequestException (PyStr.str_of_Z st ++ " Server Error" ++ tail))
  else Ok tt.

(** [response.headers.get(name, default)], keys compared without case. *)
Fixpoint headers_get (h : PyDict.dict string) (name default : string) : string :=
  match h with
  | [] => default
  | (k, v) :: h' =>
      if String.eqb (PyStr.lower k) (PyStr.lower name) then v
      else headers_get h' name default
  end.

(** The loop over [response.iter_content(chunk_size=8192)], on the state
    [(audio_data, bytes_downloaded)]. *)
Fixpoint read_chunks (cs : list (list byte)) (st : list byte * Z)
    : list byte * Z :=
  match cs with
  | [] => st
  | chunk :: cs' =>
      match chunk with
      | [] => read_chunks cs' st
      | _ :: _ =>
          read_chunks cs'
            ((fst st ++ chunk)%list, (snd st + Z.of_nat (List.length chunk))%Z)
      end
  end.

Definition iter_content (response : Response) : res (list byte * Z) :=
  match stream_exn response with
  | Some e => Raise e
  | None => Ok (read_chunks (chunks response) ([], 0%Z))
  end.

(** [FileUrl(s)] as a computation; [ValidationError] is a [ValueError]. *)
Definition file_url (s : string) : res string :=
  match FileUrl s with
  | inl uri => Ok uri
  | inr msg => Raise (ValueError msg)
  end.

(** [EmbeddedResource(type="resource", resource=BlobResourceContents(uri,
    blob, mimeType)).dict()], with the fields the server sets. *)
Definition EmbeddedResource (uri blob mimeType : string) : pyval :=
  VDict [("type", VStr "resource");
         ("resource", VDict [("uri", VUrl uri);
                             ("mimeType", VStr mimeType);
                             ("blob", VStr blob)])].

(** The statements of the outer [try]. *)
Definition download_body (config : TwilioConfig) (url : string) : M pyval :=
  if negb (PyStr.startswith url "http://" || PyStr.startswith url "https://") then
    ret (failure "Only HTTP and HTTPS URLs are supported")
  else
    match urlparse url with
    | Raise e =>
        ret (failure ("Failed to parse URL " ++ url ++ ": " ++ exn_str e))
    | Ok parsed_url =>
        if negb (truthy (netloc parsed_url)) then
          ret (failure ("Invalid URL format: " ++ url))
        else
          auth <- lift (get_auth_for_url config url) ;;
          response <- http_get url auth ;;
          lift (raise_for_status response) ;;;
          let content_type :=
            headers_get (headers response) "content-type" "application/octet-stream" in
          let file_extension := get_file_extension_from_content_type content_type in
          let filename :=
            "twilio_audio_" ++ last (PyStr.split "/" (path parsed_url)) EmptyString
              ++ file_extension in
          st <- lift (iter_content response) ;;
          let audio_data := fst st in
          if (List.length audio_data =? 0)%nat then
            ret (failure "Downloaded file is empty")
          else
            let encoded_data := Base64.b64encode audio_data in
            uri <- lift (file_url ("file://" ++ filename)) ;;
            ret (EmbeddedResource uri encoded_data content_type)
    end.

Definition download_twilio_audio (config : TwilioConfig) (url : string) : M pyval :=
  try_except (download_body config url)
    (fun e =>
       if is_request_exception e then
         ret (failure ("HTTP request failed for " ++ url ++ ": " ++ exn_str e))
       else
         ret (failure ("Unexpected error downloading audio from " ++ url ++ ": "
                         ++ exn_str e))).

(** *** [get_server_config] *)
Definition supported_audio_formats : list string :=
  ["wav"; "mp3"; "m4a"; "aac"; "ogg"; "flac"; "webm"; "3gp"; "amr"].

Definition get_server_config (config : TwilioConfig) : pyval :=
  VDict [("server_name", VStr "Twilio Audio Downloader MCP Server");
         ("version", VStr "0.1.0");
         ("host", VStr (host config));
         ("port", VInt (port config));
         ("log_level", VStr (log_level config));
         ("twilio_configured",
          VBool (truthy (twilio_account_sid config)
                 && truthy (twilio_auth_token config)));
         ("additional_auth_domains",
          VList (map VStr (PyDict.keys (auth_credentials config))));
         ("supported_protocols", VList [VStr "http"; VStr "https"]);
         ("supported_audio_formats", VList (map VStr supported_audio_formats))].


(** ** Properties *)

(** *** Strings *)

Ltac by_char c := destruct c as [[] [] [] [] [] [] [] []]; reflexivity.

Lemma lower_char_semicolon (c : ascii) :
  Ascii.eqb (PyStr.lower_char c) ";" = Ascii.eqb c ";".
Proof. by_char c. Qed.

Lemma lower_char_isspace (c : ascii) :
  PyStr.isspace (PyStr.lower_char c) = PyStr.isspace c.
Proof. by_char c. Qed.

Lemma lower_is_empty (s : string) :
  PyStr.is_empty (PyStr.lower s) = PyStr.is_empty s.
Proof. destruct s; reflexivity. Qed.

Lemma lower_lstrip (s : string) :
  PyStr.lstrip_by PyStr.isspace (PyStr.lower s)
  = PyStr.lower (PyStr.lstrip_by PyStr.isspace s).
Proof.
  induction s as [|c s IH]; simpl; [reflexivity|].
  rewrite lower_char_isspace.
  destruct (PyStr.isspace c); [exact IH | reflexivity].
Qed.

Lemma lower_rstrip (s : string) :
  PyStr.rstrip_by PyStr.isspace (PyStr.lower s)
  = PyStr.lower (PyStr.rstrip_by PyStr.isspace s).
Proof.
  induction s as [|c s IH]; simpl; [reflexivity|].
  rewrite IH, lower_char_isspace, lower_is_empty.
  destruct (PyStr.isspace c && PyStr.is_empty (PyStr.rstrip_by PyStr.isspace s));
    reflexivity.
Qed.

Lemma lower_strip (s : string) :
  PyStr.strip (PyStr.lower s) = PyStr.lower (PyStr.strip s).
Proof. unfold PyStr.strip. now rewrite lower_rstrip, lower_lstrip. Qed.

Lemma split_nonempty (c : ascii) (s : string) : PyStr.split c s <> [].
Proof.
  destruct s as [|a s]; simpl; [discriminate|].
  destruct (Ascii.eqb a c); [discriminate|].
  destruct (PyStr.split c s); discriminate.
Qed.

Lemma lower_split_hd (s : string) :
  hd EmptyString (PyStr.split ";" (PyStr.lower s))
  = PyStr.lower (hd EmptyString (PyStr.split ";" s)).
Proof.
  induction s as [|a s IH]; simpl; [reflexivity|].
  rewrite lower_char_semicolon.
  destruct (Ascii.eqb a ";"); [reflexivity|].
  pose proof (split_nonempty ";" s) as Hs.
  pose proof (split_nonempty ";" (PyStr.lower s)) as Hl.
  destruct (PyStr.split ";" s) as [|h t]; [contradiction|].
  destruct (PyStr.split ";" (PyStr.lower s)) as [|h' t']; [contradiction|].
  simpl in *. now rewrite IH.
Qed.

(** *** Dictionaries *)


Lemma get_some_in_values {V} (d : PyDict.dict V) (k : string) (v : V) :
  PyDict.get d k = Some v -> In v (map snd d).
Proof.
  induction d as [|[k' v'] d IH]; simpl; [discriminate|].
  destruct (String.eqb k' k).
  - intros H. injection H as ->. now left.
  - intros H. right. now apply IH.
Qed.


Lemma get_set_other {V} (d : PyDict.dict V) (k k0 : string) (v : V) :
  k <> k0 -> PyDict.get (PyDict.set d k v) k0 = PyDict.get d k0.
Proof.
  intros Hk. induction d as [|[k' v'] d IH]; simpl.
  - destruct (String.eqb k k0) eqn:E; [|reflexivity].
    apply String.eqb_eq in E. contradiction.
  - destruct (String.eqb k' k) eqn:E; simpl.
    + apply String.eqb_eq in E. subst k'.
      destruct (String.eqb k k0) eqn:E0; [|reflexivity].
      apply String.eqb_eq in E0. contradiction.
    + destruct (String.eqb k' k0); [reflexivity | exact IH].
Qed.

Lemma partition_app (c : ascii) (l r : string) :
  PyStr.has_char c l = false ->
  PyStr.partition c (l ++ String c r) = Some (l, r).
Proof.
  induction l as [|a l IH]; simpl; intros H.
  - now rewrite Ascii.eqb_refl.
  - apply orb_false_iff in H as [Ha Hl]. rewrite Ha, (IH Hl). reflexivity.
Qed.


Lemma append_tail_neq (s t : string) (c : ascii) : s <> s ++ String c t.
Proof.
  induction s as [|a s IH]; simpl; [discriminate|].
  intros H. injection H as H. now apply IH.
Qed.

Lemma keys_set_value {V} (d : PyDict.dict V) (k : string) (v w : V) :
  PyDict.keys (PyDict.set d k v) = PyDict.keys (PyDict.set d k w).
Proof.
  induction d as [|[k' v'] d IH]; simpl; [reflexivity|].
  destruct (String.eqb k' k); simpl; [reflexivity|].
  f_equal. exact IH.
Qed.


(** *** ContentTypeResolver *)

Lemma normalize_refines_spec (ct : string) :
  normalize_content_type ct = spec_normalize ct.
Proof.
  unfold normalize_content_type, spec_normalize.
  now rewrite lower_split_hd, lower_strip.
Qed.


(** C4 (as amended): the lookup table has 13 MIME types and 9 distinct
    extensions; audio/mp4 and audio/m4a both give .m4a; audio/wav,
    audio/x-wav and audio/wave all give .wav; the reported list of
    supported audio formats has 9 distinct entries. *)
Theorem C4_table_sizes :
  List.length extension_map = 13%nat
  /\ NoDup (PyDict.keys extension_map)
  /\ List.length (nodup string_dec (map snd extension_map)) = 9%nat
  /\ PyDict.get extension_map "audio/mp4" = Some ".m4a"
  /\ PyDict.get extension_map "audio/m4a" = Some ".m4a"
  /\ PyDict.get extension_map "audio/wav" = Some ".wav"
  /\ PyDict.get extension_map "audio/x-wav" = Some ".wav"
  /\ PyDict.get extension_map "audio/wave" = Some ".wav"
  /\ List.length supported_audio_formats = 9%nat
  /\ NoDup supported_audio_formats
  /\ (forall config,
        field (get_server_config config) "supported_audio_formats"
        = Some (VList (map VStr supported_audio_formats))).
Proof.
  repeat split; try reflexivity.
  - apply (NoDup_count_occ' string_dec). intros x Hx. simpl in Hx.
    repeat (destruct Hx as [<- | Hx]; [vm_compute; reflexivity|]). contradiction.
  - apply (NoDup_count_occ' string_dec). intros x Hx. simpl in Hx.
    repeat (destruct Hx as [<- | Hx]; [vm_compute; reflexivity|]). contradiction.
Qed.

(** C4, as the claim words it (8 MIME types, 7 extensions, 8 supported
    formats), does not hold of the table in the source. *)
Lemma C4_counterexample :
  ~ (List.length extension_map = 8%nat
     /\ List.length (nodup string_dec (map snd extension_map)) = 7%nat
     /\ List.length supported_audio_formats = 8%nat).
Proof. intros [H _]. vm_compute in H. discriminate. Qed.

(** *** CredentialRouter *)

(** C2: when the lowercased network location of the URL contains
    "twilio.com" and both the account identifier and the token are
    non-empty, the lookup returns that pair, whatever the table holds. *)
Theorem C2_twilio_rule_wins (config : TwilioConfig) (url : string)
    (parsed : ParseResult) :
  urlparse url = Ok parsed ->
  PyStr.contains "twilio.com" (PyStr.lower (netloc parsed)) = true ->
  twilio_account_sid config <> EmptyString ->
  twilio_auth_token config <> EmptyString ->
  get_auth_for_url config url
  = Ok (Some (twilio_account_sid config, twilio_auth_token config)).
Proof.
  intros Hp Hc Hsid Htok. unfold get_auth_for_url. rewrite Hp, Hc.
  destruct (twilio_account_sid config); [contradiction|].
  destruct (twilio_auth_token config); [contradiction|].
  reflexivity.
Qed.

(** *** AudioFetcher *)

(** C5: a URL that starts with neither "http://" nor "https://" gets the
    failure object with the unsupported-scheme message, and no HTTP request
    is issued. *)
Theorem C5_scheme_rejected_without_request (config : TwilioConfig) (url : string) :
  PyStr.startswith url "http://" = false ->
  PyStr.startswith url "https://" = false ->
  download_twilio_audio config url
  = (Ok (failure "Only HTTP and HTTPS URLs are supported"), []).
Proof.
  intros H1 H2. unfold download_twilio_audio, download_body.
  rewrite H1, H2. reflexivity.
Qed.

Lemma read_chunks_spec (cs : list (list byte)) (st : list byte * Z) :
  read_chunks cs st
  = ((fst st ++ List.concat cs)%list, (snd st + Z.of_nat (List.length (List.concat cs)))%Z).
Proof.
  revert st. induction cs as [|chunk cs IH]; intros [a n]; simpl.
  - now rewrite app_nil_r, Z.add_0_r.
  - destruct chunk as [|b chunk]; [apply IH|].
    rewrite IH. simpl fst. simpl snd. f_equal.
    + now rewrite <- app_assoc.
    + rewrite !length_app. simpl List.length. lia.
Qed.

(** The byte counter of the loop is the length of the buffer. *)
Lemma read_chunks_count (cs : list (list byte)) :
  snd (read_chunks cs ([], 0%Z)) = Z.of_nat (List.length (fst (read_chunks cs ([], 0%Z)))).
Proof. rewrite read_chunks_spec. reflexivity. Qed.

(** What the tool returns once the request has been answered. *)
Lemma download_with_response (config : TwilioConfig) (url : string)
    (parsed : ParseResult) (auth : option (string * string)) (response : Response) :
  PyStr.startswith url "http://" || PyStr.startswith url "https://" = true ->
  urlparse url = Ok parsed ->
  netloc parsed <> EmptyString ->
  get_auth_for_url config url = Ok auth ->
  requests_get (mkRequest url auth true 30) = Ok response ->
  download_twilio_audio config url
  = (Ok (let caught e :=
           if is_request_exception e
           then failure ("HTTP request failed for " ++ url ++ ": " ++ exn_str e)
           else failure ("Unexpected error downloading audio from " ++ url ++ ": "
                           ++ exn_str e) in
         let content_type :=
           headers_get (headers response) "content-type" "application/octet-stream" in
         match raise_for_status response with
         | Raise e => caught e
         | Ok _ =>
             match stream_exn response with
             | Some e => caught e
             | None =>
                 match List.concat (chunks response) with
                 | [] => failure "Downloaded file is empty"
                 | _ :: _ =>
                     match file_url ("file://" ++ "twilio_audio_"
                                      ++ last (PyStr.split "/" (path parsed)) EmptyString
                                      ++ get_file_extension_from_content_type content_type) with
                     | Raise e => caught e
                     | Ok uri =>
                         EmbeddedResource uri
                           (Base64.b64encode (List.concat (chunks response))) content_type
                     end
                 end
             end
         end),
     [mkRequest url auth true 30]).
Proof.
  intros Hs Hp Hn Ha Hg.
  unfold download_twilio_audio, download_body.
  rewrite Hs, Hp. simpl negb.
  destruct (netloc parsed) as [|c nl] eqn:En; [contradiction|].
  simpl truthy. simpl negb. cbv iota.
  unfold lift, http_get, bind at 1 2. rewrite Ha, Hg.
  destruct (raise_for_status response) as [[]|e] eqn:Er.
  - unfold iter_content. destruct (stream_exn response) as [e|].
    + simpl. destruct (is_request_exception e); reflexivity.
    + rewrite read_chunks_spec. simpl fst.
      destruct (List.concat (chunks response)) as [|b bs] eqn:Ec.
      * reflexivity.
      * simpl List.length. simpl Nat.eqb. cbv iota.
        match goal with |- context [file_url ?u] => destruct (file_url u) as [uri|e] end.
        -- reflexivity.
        -- simpl. destruct (is_request_exception e); reflexivity.
  - simpl. destruct (is_request_exception e); reflexivity.
Qed.

(** C7: when the request is answered with status 200, the stream ends
    without an exception and the chunks hold no byte, the tool returns the
    failure object with the message "Downloaded file is empty" after that
    one request; the same holds for every status that [raise_for_status]
    lets through, and with any status the result of an empty body is a
    failure object. *)
Theorem C7_empty_body_is_failure (config : TwilioConfig) (url : string)
    (parsed : ParseResult) (auth : option (string * string)) (response : Response) :
  PyStr.startswith url "http://" || PyStr.startswith url "https://" = true ->
  urlparse url = Ok parsed ->
  netloc parsed <> EmptyString ->
  get_auth_for_url config url = Ok auth ->
  requests_get (mkRequest url auth true 30) = Ok response ->
  stream_exn response = None ->
  List.concat (chunks response) = [] ->
  (status_code response = 200%Z ->
   download_twilio_audio config url
   = (Ok (failure "Downloaded file is empty"), [mkRequest url auth true 30]))
  /\ ((status_code response < 400 \/ 600 <= status_code response)%Z ->
      download_twilio_audio config url
      = (Ok (failure "Downloaded file is empty"), [mkRequest url auth true 30]))
  /\ (exists msg,
        download_twilio_audio config url
        = (Ok (failure msg), [mkRequest url auth true 30])).
Proof.
  intros Hs Hp Hn Ha Hg Hx Hb.
  rewrite (download_with_response config url parsed auth response Hs Hp Hn Ha Hg).
  rewrite Hx, Hb. cbv zeta.
  assert (Hout : (status_code response < 400 \/ 600 <= status_code response)%Z ->
                 raise_for_status response = Ok tt).
  { intros Hr. unfold raise_for_status.
    destruct ((400 <=? status_code response) && (status_code response <? 500))%Z eqn:E1;
      [apply andb_true_iff in E1 as [A B]; lia|].
    destruct ((500 <=? status_code response) && (status_code response <? 600))%Z eqn:E2;
      [apply andb_true_iff in E2 as [A B]; lia|].
    reflexivity. }
  split; [|split].
  - intros H200. rewrite Hout by lia. reflexivity.
  - intros Hr. rewrite (Hout Hr). reflexivity.
  - destruct (raise_for_status response) as [[]|e].
    + eexists; reflexivity.
    + destruct (is_request_exception e); eexists; reflexivity.
Qed.

(** C8 (as amended): when the request is answered with a status from 400
    to 599, the tool returns, after that one request, the failure object
    whose message is "HTTP request failed for <url>: <status> Client Error:
    <reason> for url: <url>" (Server Error from 500 on); its data field is
    None and its size is 0, and the result does not depend on the body. *)
Theorem C8_http_error_status (config : TwilioConfig) (url : string)
    (parsed : ParseResult) (auth : option (string * string)) (response : Response) :
  PyStr.startswith url "http://" || PyStr.startswith url "https://" = true ->
  urlparse url = Ok parsed ->
  netloc parsed <> EmptyString ->
  get_auth_for_url config url = Ok auth ->
  requests_get (mkRequest url auth true 30) = Ok response ->
  (400 <= status_code response < 600)%Z ->
  let msg :=
    "HTTP request failed for " ++ url ++ ": "
      ++ PyStr.str_of_Z (status_code response)
      ++ (if (status_code response <? 500)%Z then " Client Error" else " Server Error")
      ++ ": " ++ reason response ++ " for url: " ++ resp_url response in
  download_twilio_audio config url
  = (Ok (failure msg), [mkRequest url auth true 30])
  /\ field (failure msg) "success" = Some (VBool false)
  /\ field (failure msg) "data" = Some VNone
  /\ field (failure msg) "size_bytes" = Some (VInt 0).
Proof.
  intros Hs Hp Hn Ha Hg Hr msg.
  split; [|repeat split].
  rewrite (download_with_response config url parsed auth response Hs Hp Hn Ha Hg).
  subst msg. unfold raise_for_status.
  destruct (status_code response <? 500)%Z eqn:E.
  - apply Z.ltb_lt in E.
    replace (400 <=? status_code response)%Z with true by (symmetry; apply Z.leb_le; lia).
    reflexivity.
  - apply Z.ltb_ge in E. rewrite andb_false_r.
    replace (500 <=? status_code response)%Z with true by (symmetry; apply Z.leb_le; lia).
    replace (status_code response <? 600)%Z with true by (symmetry; apply Z.ltb_lt; lia).
    reflexivity.
Qed.

(** *** CredentialRouter: building the table *)

(** An entry [base|user:password] whose base has a network location. *)
Lemma load_auth_entry_registers (self : TwilioConfig) (key base user pw : string)
    (parsed : ParseResult) :
  PyStr.startswith key "AUTH_" = true ->
  PyStr.has_char "|" base = false ->
  PyStr.has_char ":" user = false ->
  urlparse base = Ok parsed ->
  netloc parsed <> EmptyString ->
  load_auth_entry self (key, base ++ String "|" (user ++ String ":" pw))
  = Ok (set_auth_credentials self
          (PyDict.set (auth_credentials self) (PyStr.lower (netloc parsed))
             [("username", user); ("password", pw); ("base_url", base)])).
Proof.
  intros Hk Hb Hu Hp Hn. unfold load_auth_entry.
  rewrite Hk, (partition_app _ _ _ Hb), (partition_app _ _ _ Hu), Hp.
  destruct (netloc parsed); [contradiction | reflexivity].
Qed.



(** C10: the table is keyed on the whole lowercased network location. After
    a route is built from [base], a URL whose lowercased network location
    is that of [base] followed by ":port" finds no entry under its own key
    (as long as no other route was registered under it), so the lookup
    returns nothing, unless the twilio rule applies to the port-bearing
    network location, in which case it returns the twilio pair. So
    "https://example.com:8080/f" gets nothing from the route of
    "https://example.com", and "https://api.twilio.com:443/x" gets the
    twilio pair. *)
Theorem C10_port_is_part_of_the_key :
  (forall self key base user pw parsed url parsed_url port,
      PyStr.startswith key "AUTH_" = true ->
      PyStr.has_char "|" base = false ->
      PyStr.has_char ":" user = false ->
      urlparse base = Ok parsed ->
      netloc parsed <> EmptyString ->
      urlparse url = Ok parsed_url ->
      PyStr.lower (netloc parsed_url)
      = PyStr.lower (netloc parsed) ++ String ":" port ->
      PyDict.get (auth_credentials self) (PyStr.lower (netloc parsed_url)) = None ->
      exists config,
        load_auth_from_env [(key, base ++ String "|" (user ++ String ":" pw))] self
        = Ok config
        /\ PyDict.keys (auth_credentials config)
           = PyDict.keys (PyDict.set (auth_credentials self)
                            (PyStr.lower (netloc parsed)) [])
        /\ PyDict.get (auth_credentials config) (PyStr.lower (netloc parsed_url)) = None
        /\ get_auth_for_url config url
           = if PyStr.contains "twilio.com" (PyStr.lower (netloc parsed_url))
                && truthy (twilio_account_sid self) && truthy (twilio_auth_token self)
             then Ok (Some (twilio_account_sid self, twilio_auth_token self))
             else Ok None)
  /\ (forall self,
        auth_credentials self = [] ->
        exists config,
          load_auth_from_env [("AUTH_X", "https://example.com|bob:secret")] self
          = Ok config
          /\ PyDict.keys (auth_credentials config) = ["example.com"]
          /\ get_auth_for_url config "https://example.com:8080/f" = Ok None
          /\ get_auth_for_url config "https://example.com/f" = Ok (Some ("bob", "secret")))
  /\ (forall config,
        twilio_account_sid config <> EmptyString ->
        twilio_auth_token config <> EmptyString ->
        get_auth_for_url config "https://api.twilio.com:443/x"
        = Ok (Some (twilio_account_sid config, twilio_auth_token config))).
Proof.
  split; [|split].
  - intros self key base user pw parsed url parsed_url port
      Hk Hb Hu Hp Hn Hpu Hnl Hfree.
    eexists. split.
    { cbn [load_auth_from_env].
      rewrite (load_auth_entry_registers self key base user pw parsed Hk Hb Hu Hp Hn).
      reflexivity. }
    assert (Hmiss :
      PyDict.get (PyDict.set (auth_credentials self) (PyStr.lower (netloc parsed))
                    [("username", user); ("password", pw); ("base_url", base)])
        (PyStr.lower (netloc parsed_url)) = None).
    { rewrite get_set_other; [exact Hfree|].
      rewrite Hnl. apply append_tail_neq. }
    split; [|split].
    + simpl auth_credentials. apply keys_set_value.
    + exact Hmiss.
    + unfold get_auth_for_url. rewrite Hpu. simpl twilio_account_sid.
      simpl twilio_auth_token. simpl auth_credentials. rewrite Hmiss.
      reflexivity.
  - intros self Hempty. eexists. split; [reflexivity|].
    simpl auth_credentials. rewrite Hempty.
    split; [reflexivity|]. split; reflexivity.
  - intros config Hsid Htok.
    unfold get_auth_for_url.
    change (urlparse "https://api.twilio.com:443/x")
      with (Ok (mkParseResult "https" "api.twilio.com:443" "/x" "" "" "")).
    cbv beta iota.
    change (PyStr.contains "twilio.com"
              (PyStr.lower (netloc (mkParseResult "https" "api.twilio.com:443" "/x" "" "" ""))))
      with true.
    destruct (twilio_account_sid config); [contradiction|].
    destruct (twilio_auth_token config); [contradiction|].
    reflexivity.
Qed.

(** *** ConfigReporter *)






(** The shape of the value returned on the success path: an embedded
    resource with a URI, a MIME type and a base64 blob, and no field for
    the size or for the success flag. *)
Lemma download_success_shape (config : TwilioConfig) (url : string)
    (parsed : ParseResult) (auth : option (string * string)) (response : Response)
    (uri : string) :
  PyStr.startswith url "http://" || PyStr.startswith url "https://" = true ->
  urlparse url = Ok parsed ->
  netloc parsed <> EmptyString ->
  get_auth_for_url config url = Ok auth ->
  requests_get (mkRequest url auth true 30) = Ok response ->
  raise_for_status response = Ok tt ->
  stream_exn response = None ->
  List.concat (chunks response) <> [] ->
  let content_type :=
    headers_get (headers response) "content-type" "application/octet-stream" in
  FileUrl ("file://" ++ "twilio_audio_"
             ++ last (PyStr.split "/" (path parsed)) EmptyString
             ++ get_file_extension_from_content_type content_type) = inl uri ->
  exists v,
    download_twilio_audio config url = (Ok v, [mkRequest url auth true 30])
    /\ v = EmbeddedResource uri (Base64.b64encode (List.concat (chunks response)))
             content_type
    /\ field v "size_bytes" = None
    /\ field v "success" = None.
Proof.
  intros Hs Hp Hn Ha Hg Hr Hx Hb content_type Hu.
  rewrite (download_with_response config url parsed auth response Hs Hp Hn Ha Hg).
  cbv zeta. fold content_type. rewrite Hr, Hx.
  destruct (List.concat (chunks response)) as [|b bs] eqn:Ec; [contradiction|].
  unfold file_url. rewrite Hu. eexists. repeat split.
Qed.

(** ** Further properties of the tool functions *)

Lemma lower_char_idempotent (c : ascii) :
  PyStr.lower_char (PyStr.lower_char c) = PyStr.lower_char c.
Proof. by_char c. Qed.

Lemma lower_idempotent (s : string) : PyStr.lower (PyStr.lower s) = PyStr.lower s.
Proof.
  induction s as [|c s IH]; simpl; [reflexivity|].
  now rewrite lower_char_idempotent, IH.
Qed.

(** *** The fetch never raises and issues at most one request *)

Ltac handler_cases e :=
  cbn; try (destruct (is_request_exception e)); cbn.

Ltac by_char_false c :=
  destruct c as [[] [] [] [] [] [] [] []]; cbn; easy.

Ltac fail_case :=
  cbn; eexists; split; [reflexivity | left; eexists; reflexivity].

(** X1: Whatever the URL, the configuration and the remote side do, the tool
    returns a value, and that value is a failure object or an embedded
    resource: no exception leaves the function. *)
Theorem download_always_returns_a_value (config : TwilioConfig) (url : string) :
  exists v,
    fst (download_twilio_audio config url) = Ok v
    /\ ((exists msg, v = failure msg)
        \/ (exists uri blob mime, v = EmbeddedResource uri blob mime)).
Proof.
  unfold download_twilio_audio, download_body.
  destruct (negb (PyStr.startswith url "http://" || PyStr.startswith url "https://"));
    [fail_case|].
  destruct (urlparse url) as [parsed|e]; [|fail_case].
  destruct (negb (truthy (netloc parsed))); [fail_case|].
  destruct (get_auth_for_url config url) as [auth|e];
    [|handler_cases e; fail_case].
  unfold lift, http_get, bind, try_except, ret. cbv beta iota zeta.
  destruct (requests_get (mkRequest url auth true 30)) as [response|e];
    [|handler_cases e; fail_case].
  cbv beta iota zeta.
  destruct (raise_for_status response) as [[]|e];
    [|handler_cases e; fail_case].
  cbv beta iota zeta. unfold iter_content.
  destruct (stream_exn response) as [e|]; [handler_cases e; fail_case|].
  cbv beta iota zeta.
  destruct (List.length (fst (read_chunks (chunks response) ([], 0%Z))) =? 0)%nat;
    [fail_case|].
  unfold file_url.
  match goal with |- context [FileUrl ?u] => destruct (FileUrl u) as [uri|msg] end.
  - cbn. eexists. split; [reflexivity | right; do 3 eexists; reflexivity].
  - fail_case.
Qed.

(** X2: The tool issues no request at all, or exactly one: a GET of the URL it
    was given, streamed, with a timeout of 30 seconds and the credentials the
    router selected; and it issues one only for a URL that passed the scheme
    test and parsed with a network location. *)
Theorem download_issues_at_most_one_request (config : TwilioConfig) (url : string) :
  snd (download_twilio_audio config url) = []
  \/ (exists parsed auth,
         PyStr.startswith url "http://" || PyStr.startswith url "https://" = true
         /\ urlparse url = Ok parsed
         /\ netloc parsed <> EmptyString
         /\ get_auth_for_url config url = Ok auth
         /\ snd (download_twilio_audio config url) = [mkRequest url auth true 30]).
Proof.
  unfold download_twilio_audio, download_body.
  destruct (PyStr.startswith url "http://" || PyStr.startswith url "https://") eqn:Hs;
    [|left; reflexivity].
  destruct (urlparse url) as [parsed|e] eqn:Hp; [|left; reflexivity].
  destruct (netloc parsed) as [|c nl] eqn:Hn; [left; reflexivity|].
  cbn [negb truthy PyStr.is_empty].
  destruct (get_auth_for_url config url) as [auth|e] eqn:Ha;
    [|left; handler_cases e; reflexivity].
  right. exists parsed, auth.
  split; [reflexivity|]. split; [reflexivity|].
  split; [rewrite Hn; discriminate|]. split; [reflexivity|].
  unfold lift, http_get, bind, try_except, ret. cbv beta iota zeta.
  destruct (requests_get (mkRequest url auth true 30)) as [response|e];
    [|handler_cases e; reflexivity].
  cbv beta iota zeta.
  destruct (raise_for_status response) as [[]|e];
    [|handler_cases e; reflexivity].
  cbv beta iota zeta. unfold iter_content.
  destruct (stream_exn response) as [e|]; [handler_cases e; reflexivity|].
  cbv beta iota zeta.
  destruct (List.length (fst (read_chunks (chunks response) ([], 0%Z))) =? 0)%nat;
    [reflexivity|].
  unfold file_url.
  match goal with |- context [FileUrl ?u] => destruct (FileUrl u) as [uri|msg] end;
    reflexivity.
Qed.

(** *** Failures after the request was sent *)

(** X3: When [requests.get] itself raises (no connection, timeout, ...), the
    tool returns a failure object after that one request: its message is
    "HTTP request failed for <url>: <cause>" for an exception of [requests],
    and "Unexpected error downloading audio from <url>: <cause>" otherwise. *)
Theorem download_transport_error (config : TwilioConfig) (url : string)
    (parsed : ParseResult) (auth : option (string * string)) (e : exn) :
  PyStr.startswith url "http://" || PyStr.startswith url "https://" = true ->
  urlparse url = Ok parsed ->
  netloc parsed <> EmptyString ->
  get_auth_for_url config url = Ok auth ->
  requests_get (mkRequest url auth true 30) = Raise e ->
  download_twilio_audio config url
  = (Ok (failure ((if is_request_exception e
                   then "HTTP request failed for "
                   else "Unexpected error downloading audio from ")
                    ++ url ++ ": " ++ exn_str e)),
     [mkRequest url auth true 30]).
Proof.
  intros Hs Hp Hn Ha Hg.
  unfold download_twilio_audio, download_body.
  rewrite Hs, Hp. simpl negb.
  destruct (netloc parsed) as [|c nl]; [contradiction|].
  cbn [negb truthy PyStr.is_empty]. rewrite Ha.
  unfold lift, http_get, bind, try_except, ret. cbv beta iota zeta.
  rewrite Hg. cbv beta iota.
  destruct (is_request_exception e); reflexivity.
Qed.

(** X4: When the body stream breaks off with an exception, the tool returns a
    failure object, whatever chunks were read before: no partial payload is
    returned. *)
Theorem download_stream_cut (config : TwilioConfig) (url : string)
    (parsed : ParseResult) (auth : option (string * string))
    (response : Response) (e : exn) :
  PyStr.startswith url "http://" || PyStr.startswith url "https://" = true ->
  urlparse url = Ok parsed ->
  netloc parsed <> EmptyString ->
  get_auth_for_url config url = Ok auth ->
  requests_get (mkRequest url auth true 30) = Ok response ->
  raise_for_status response = Ok tt ->
  stream_exn response = Some e ->
  download_twilio_audio config url
  = (Ok (failure ((if is_request_exception e
                   then "HTTP request failed for "
                   else "Unexpected error downloading audio from ")
                    ++ url ++ ": " ++ exn_str e)),
     [mkRequest url auth true 30]).
Proof.
  intros Hs Hp Hn Ha Hg Hr Hx.
  rewrite (download_with_response config url parsed auth response Hs Hp Hn Ha Hg).
  cbv zeta. rewrite Hr, Hx.
  destruct (is_request_exception e); reflexivity.
Qed.

(** *** URLs without a host *)

(** [urlsplit] on a URL that begins with "http://" or "https://". *)
Lemma urlsplit_http (tls : bool) (rest : string) :
  urlsplit ((if tls then "https://" else "http://") ++ rest)
  = let '(nl, r) := splitnetloc (PyStr.remove_chars unsafe_url_byte rest) in
    match check_brackets nl with
    | Raise e => Raise e
    | Ok _ =>
        let '(u5, fr) := cut "#" r in
        let '(u6, q) := cut "?" u5 in
        Ok (if tls then "https" else "http", nl, u6, q, fr)
    end.
Proof.
  destruct tls.
  - unfold urlsplit.
    change (PyStr.lstrip_by c0_control_or_space ("https://" ++ rest))
      with ("https://" ++ rest).
    change (PyStr.remove_chars unsafe_url_byte ("https://" ++ rest))
      with ("https://" ++ PyStr.remove_chars unsafe_url_byte rest).
    change (split_scheme ("https://" ++ PyStr.remove_chars unsafe_url_byte rest))
      with ("https", "//" ++ PyStr.remove_chars unsafe_url_byte rest).
    cbv beta iota zeta.
    change (PyStr.take2 ("//" ++ PyStr.remove_chars unsafe_url_byte rest)) with "//".
    change (PyStr.drop2 ("//" ++ PyStr.remove_chars unsafe_url_byte rest))
      with (PyStr.remove_chars unsafe_url_byte rest).
    change ("//" =? "//")%string with true. cbv iota.
    destruct (splitnetloc (PyStr.remove_chars unsafe_url_byte rest)) as [nl r].
    reflexivity.
  - unfold urlsplit.
    change (PyStr.lstrip_by c0_control_or_space ("http://" ++ rest))
      with ("http://" ++ rest).
    change (PyStr.remove_chars unsafe_url_byte ("http://" ++ rest))
      with ("http://" ++ PyStr.remove_chars unsafe_url_byte rest).
    change (split_scheme ("http://" ++ PyStr.remove_chars unsafe_url_byte rest))
      with ("http", "//" ++ PyStr.remove_chars unsafe_url_byte rest).
    cbv beta iota zeta.
    change (PyStr.take2 ("//" ++ PyStr.remove_chars unsafe_url_byte rest)) with "//".
    change (PyStr.drop2 ("//" ++ PyStr.remove_chars unsafe_url_byte rest))
      with (PyStr.remove_chars unsafe_url_byte rest).
    change ("//" =? "//")%string with true. cbv iota.
    destruct (splitnetloc (PyStr.remove_chars unsafe_url_byte rest)) as [nl r].
    reflexivity.
Qed.

Lemma prefix_split (p s : string) :
  String.prefix p s = true -> exists rest, s = p ++ rest.
Proof.
  revert s. induction p as [|a p IH]; intros s H.
  - exists s. reflexivity.
  - destruct s as [|b s]; [discriminate|]. simpl in H.
    destruct (ascii_dec a b) as [->|]; [|discriminate].
    destruct (IH s H) as [rest ->]. exists rest. reflexivity.
Qed.

(** A URL that passes the scheme test is "http://" or "https://" followed
    by some text. *)
Lemma scheme_test_split (url : string) :
  PyStr.startswith url "http://" || PyStr.startswith url "https://" = true ->
  exists (tls : bool) (rest : string),
    url = (if tls then "https://" else "http://") ++ rest.
Proof.
  intros H. apply orb_true_iff in H as [H | H]; apply prefix_split in H as [rest ->].
  - exists false, rest. reflexivity.
  - exists true, rest. reflexivity.
Qed.

(** [urlparse] on such a URL: the network location is the text up to the
    first slash, question mark or hash, once tabs, carriage returns and line
    feeds are dropped. *)
Lemma urlparse_http (tls : bool) (rest : string) :
  urlparse ((if tls then "https://" else "http://") ++ rest)
  = let '(nl, r) := splitnetloc (PyStr.remove_chars unsafe_url_byte rest) in
    match check_brackets nl with
    | Raise e => Raise e
    | Ok _ =>
        let '(u5, fr) := cut "#" r in
        let '(u6, q) := cut "?" u5 in
        let '(p, prm) :=
          if PyStr.has_char ";" u6 then splitparams u6 else (u6, EmptyString) in
        Ok (mkParseResult (if tls then "https" else "http") nl p prm q fr)
    end.
Proof.
  unfold urlparse. rewrite urlsplit_http.
  destruct (splitnetloc (PyStr.remove_chars unsafe_url_byte rest)) as [nl r].
  destruct (check_brackets nl) as [[]|e]; [|reflexivity].
  destruct (cut "#" r) as [u5 fr]. destruct (cut "?" u5) as [u6 q].
  destruct tls; reflexivity.
Qed.

Lemma urlparse_http_netloc (tls : bool) (rest : string) (parsed : ParseResult) :
  urlparse ((if tls then "https://" else "http://") ++ rest) = Ok parsed ->
  netloc parsed = fst (splitnetloc (PyStr.remove_chars unsafe_url_byte rest)).
Proof.
  rewrite urlparse_http.
  destruct (splitnetloc (PyStr.remove_chars unsafe_url_byte rest)) as [nl r].
  destruct (check_brackets nl) as [[]|e]; [|discriminate].
  destruct (cut "#" r) as [u5 fr]. destruct (cut "?" u5) as [u6 q].
  destruct (if PyStr.has_char ";" u6 then splitparams u6 else (u6, EmptyString)) as [p prm].
  intros H. injection H as <-. reflexivity.
Qed.

Lemma remove_unsafe_delim (c : ascii) (r : string) :
  netloc_delim c = true ->
  PyStr.remove_chars unsafe_url_byte (String c r)
  = String c (PyStr.remove_chars unsafe_url_byte r).
Proof.
  intros H. simpl.
  destruct (unsafe_url_byte c) eqn:E; [|reflexivity].
  exfalso. revert H E. clear. by_char_false c.
Qed.

(** X5: A URL that is "http://" or "https://" followed by nothing, or by a
    slash, a question mark or a hash (such as "http:///path" or
    "https://?q=1"), gets the failure "Invalid URL format: <url>", and no
    request is issued. *)
Theorem download_rejects_url_without_host (config : TwilioConfig)
    (tls : bool) (rest : string) :
  (rest = EmptyString
   \/ exists c r, rest = String c r /\ netloc_delim c = true) ->
  let url := (if tls then "https://" else "http://") ++ rest in
  download_twilio_audio config url
  = (Ok (failure ("Invalid URL format: " ++ url)), []).
Proof.
  intros Hrest url.
  assert (Hs : PyStr.startswith url "http://" || PyStr.startswith url "https://" = true).
  { subst url. clear. destruct tls, rest; reflexivity. }
  assert (Hp : exists parsed, urlparse url = Ok parsed /\ netloc parsed = EmptyString).
  { subst url. rewrite urlparse_http.
    assert (Hn : splitnetloc (PyStr.remove_chars unsafe_url_byte rest)
                 = (EmptyString, PyStr.remove_chars unsafe_url_byte rest)).
    { destruct Hrest as [-> | (c & r & -> & Hc)]; [reflexivity|].
      rewrite (remove_unsafe_delim c r Hc). simpl. now rewrite Hc. }
    rewrite Hn. cbn [check_brackets PyStr.has_char andb negb orb].
    destruct (cut "#" (PyStr.remove_chars unsafe_url_byte rest)) as [u5 fr].
    destruct (cut "?" u5) as [u6 q].
    destruct (if PyStr.has_char ";" u6 then splitparams u6 else (u6, EmptyString))
      as [p prm].
    eexists. split; reflexivity. }
  destruct Hp as (parsed & Hp & Hn).
  unfold download_twilio_audio, download_body.
  rewrite Hs, Hp, Hn. reflexivity.
Qed.

(** X6: A URL whose network location has an opening bracket without a closing
    one, or the reverse (such as "http://[::1/x"), gets the failure "Failed
    to parse URL <url>: Invalid IPv6 URL", and no request is issued. *)
Theorem download_reports_unbalanced_bracket (config : TwilioConfig)
    (tls : bool) (rest : string) :
  let url := (if tls then "https://" else "http://") ++ rest in
  let nl := fst (splitnetloc (PyStr.remove_chars unsafe_url_byte rest)) in
  PyStr.has_char "[" nl <> PyStr.has_char "]" nl ->
  download_twilio_audio config url
  = (Ok (failure ("Failed to parse URL " ++ url ++ ": Invalid IPv6 URL")), []).
Proof.
  intros url nl Hb.
  assert (Hs : PyStr.startswith url "http://" || PyStr.startswith url "https://" = true).
  { subst url. clear. destruct tls, rest; reflexivity. }
  assert (Hp : urlparse url = Raise (ValueError "Invalid IPv6 URL")).
  { subst url nl. rewrite urlparse_http.
    destruct (splitnetloc (PyStr.remove_chars unsafe_url_byte rest)) as [n r].
    simpl fst in Hb. unfold check_brackets.
    destruct (PyStr.has_char "[" n), (PyStr.has_char "]" n);
      try reflexivity; contradiction. }
  unfold download_twilio_audio, download_body.
  rewrite Hs, Hp. reflexivity.
Qed.

(** *** Building the credential table *)

(** X8: Only variables whose name starts with "AUTH_" matter: loading an
    environment gives what loading its AUTH_ entries alone gives. *)
Theorem load_auth_from_env_ignores_other_variables
    (environ : list (string * string)) (self : TwilioConfig) :
  load_auth_from_env environ self
  = load_auth_from_env
      (filter (fun item => PyStr.startswith (fst item) "AUTH_") environ) self.
Proof.
  revert self. induction environ as [|[key value] environ IH]; intros self;
    [reflexivity|].
  cbn [filter fst].
  destruct (PyStr.startswith key "AUTH_") eqn:Hk.
  - cbn [load_auth_from_env].
    destruct (load_auth_entry self (key, value)) as [self'|e]; [apply IH | reflexivity].
  - cbn [load_auth_from_env]. unfold load_auth_entry at 1. rewrite Hk. apply IH.
Qed.

Lemma load_auth_entry_table (self config : TwilioConfig) (item : string * string) :
  load_auth_entry self item = Ok config ->
  config = self
  \/ exists key cred,
       PyStr.lower key = key
       /\ PyDict.mem cred "username" = true
       /\ PyDict.mem cred "password" = true
       /\ config = set_auth_credentials self (PyDict.set (auth_credentials self) key cred).
Proof.
  destruct item as [key value]. unfold load_auth_entry.
  destruct (PyStr.startswith key "AUTH_"); [|intros H; injection H as <-; now left].
  destruct (PyStr.partition "|" value) as [[base auth_part]|];
    [|intros H; injection H as <-; now left].
  destruct (PyStr.partition ":" auth_part) as [[user pw]|];
    [|intros H; injection H as <-; now left].
  destruct (urlparse base) as [parsed|e]; [|discriminate].
  destruct (truthy (netloc parsed)); [|intros H; injection H as <-; now left].
  intros H. injection H as <-. right.
  exists (PyStr.lower (netloc parsed)),
    [("username", user); ("password", pw); ("base_url", base)].
  split; [apply lower_idempotent|]. repeat split.
Qed.

(** X9: Loading changes nothing but the credential table: the bind host, the
    port, the log level and the twilio settings stay as they were. *)
Theorem load_auth_from_env_keeps_settings (environ : list (string * string))
    (self config : TwilioConfig) :
  load_auth_from_env environ self = Ok config ->
  host config = host self
  /\ port config = port self
  /\ log_level config = log_level self
  /\ twilio_account_sid config = twilio_account_sid self
  /\ twilio_auth_token config = twilio_auth_token self
  /\ twilio_base_url config = twilio_base_url self.
Proof.
  revert self. induction environ as [|item environ IH]; intros self H; simpl in H.
  - injection H as <-. repeat split.
  - destruct (load_auth_entry self item) as [self'|e] eqn:E; [|discriminate].
    destruct (IH self' H) as (H1 & H2 & H3 & H4 & H5 & H6).
    rewrite H1, H2, H3, H4, H5, H6.
    apply load_auth_entry_table in E as [-> | (k & cred & _ & _ & _ & ->)];
      repeat split.
Qed.

Lemma keys_set (V : Type) (d : PyDict.dict V) (k : string) (v : V) :
  PyDict.keys (PyDict.set d k v)
  = if PyDict.mem d k then PyDict.keys d else (PyDict.keys d ++ [k])%list.
Proof.
  unfold PyDict.mem. induction d as [|[k' v'] d IH]; simpl; [reflexivity|].
  destruct (String.eqb k' k); simpl; [reflexivity|].
  transitivity
    (k' :: (if match PyDict.get d k with Some _ => true | None => false end
            then PyDict.keys d else (PyDict.keys d ++ [k])%list));
    [f_equal; exact IH | destruct (PyDict.get d k); reflexivity].
Qed.

Lemma mem_in_keys (V : Type) (d : PyDict.dict V) (k : string) :
  PyDict.mem d k = false -> ~ In k (PyDict.keys d).
Proof.
  unfold PyDict.mem. induction d as [|[k' v'] d IH]; simpl; [intros _ []|].
  destruct (String.eqb k' k) eqn:E; [discriminate|].
  intros H [Hk | Hk].
  - subst k'. rewrite String.eqb_refl in E. discriminate.
  - now apply IH.
Qed.

(** X10: The keys of the table (the domains that the configuration report lists)
    stay pairwise distinct and lowercase under loading, and loading only
    appends to them: no route is removed and none changes place. *)
Theorem load_auth_from_env_keys (environ : list (string * string))
    (self config : TwilioConfig) :
  load_auth_from_env environ self = Ok config ->
  NoDup (PyDict.keys (auth_credentials self)) ->
  Forall (fun k => PyStr.lower k = k) (PyDict.keys (auth_credentials self)) ->
  NoDup (PyDict.keys (auth_credentials config))
  /\ Forall (fun k => PyStr.lower k = k) (PyDict.keys (auth_credentials config))
  /\ exists added,
       PyDict.keys (auth_credentials config)
       = (PyDict.keys (auth_credentials self) ++ added)%list.
Proof.
  clear FileUrl requests_get.
  revert self. induction environ as [|item environ IH]; intros self H Hnd Hlow;
    simpl in H.
  - injection H as <-. split; [exact Hnd|]. split; [exact Hlow|].
    exists []. now rewrite app_nil_r.
  - destruct (load_auth_entry self item) as [self'|e] eqn:E; [|discriminate].
    apply load_auth_entry_table in E as [-> | (k & cred & Hk & _ & _ & ->)];
      [now apply IH|].
    assert (Hkeys := keys_set _ (auth_credentials self) k cred).
    destruct (PyDict.mem (auth_credentials self) k) eqn:Hm.
    + destruct (IH _ H) as (A & B & added & C);
        cbn [auth_credentials set_auth_credentials]; rewrite ?Hkeys; try assumption.
      split; [exact A|]. split; [exact B|].
      exists added. rewrite C. cbn [auth_credentials set_auth_credentials].
      now rewrite Hkeys.
    + destruct (IH _ H) as (A & B & added & C);
        cbn [auth_credentials set_auth_credentials]; rewrite ?Hkeys.
      * apply NoDup_app; [exact Hnd | repeat constructor; simpl; tauto |].
        intros x Hx [<- | []]. now apply (mem_in_keys _ _ _ Hm).
      * apply Forall_app. split; [exact Hlow | now repeat constructor].
      * split; [exact A|]. split; [exact B|].
        exists (k :: added). rewrite C. cbn [auth_credentials set_auth_credentials].
        rewrite Hkeys, <- app_assoc. reflexivity.
Qed.

Lemma forall_get (V : Type) (P : V -> Prop) (d : PyDict.dict V) (k : string) (v : V) :
  Forall (fun kv => P (snd kv)) d -> PyDict.get d k = Some v -> P v.
Proof.
  induction d as [|[k' v'] d IH]; simpl; intros Hd Hg; [discriminate|].
  inversion Hd as [|? ? Hv Hd']; subst.
  destruct (String.eqb k' k); [injection Hg as <-; exact Hv | now apply IH].
Qed.

Lemma forall_set (V : Type) (P : V -> Prop) (d : PyDict.dict V) (k : string) (v : V) :
  Forall (fun kv => P (snd kv)) d -> P v ->
  Forall (fun kv => P (snd kv)) (PyDict.set d k v).
Proof.
  induction d as [|[k' v'] d IH]; simpl; intros Hd Hv.
  - now repeat constructor.
  - inversion Hd as [|? ? Hv' Hd']; subst.
    destruct (String.eqb k' k); constructor; auto.
Qed.

(** X11: Every entry that loading puts in the table has a user name and a
    password, so on a table whose entries all have them (the empty table of
    a fresh configuration, for one) the lookup never raises for a missing
    key: it answers for every URL that parses. *)
Theorem get_auth_for_url_answers_after_load (environ : list (string * string))
    (self config : TwilioConfig) :
  load_auth_from_env environ self = Ok config ->
  Forall (fun kv => PyDict.mem (snd kv) "username" = true
                    /\ PyDict.mem (snd kv) "password" = true)
    (auth_credentials self) ->
  Forall (fun kv => PyDict.mem (snd kv) "username" = true
                    /\ PyDict.mem (snd kv) "password" = true)
    (auth_credentials config)
  /\ forall url parsed,
       urlparse url = Ok parsed ->
       exists auth, get_auth_for_url config url = Ok auth.
Proof.
  intros Hload Hwf.
  assert (Hc : Forall (fun kv => PyDict.mem (snd kv) "username" = true
                                 /\ PyDict.mem (snd kv) "password" = true)
                 (auth_credentials config)).
  { revert self Hload Hwf.
    induction environ as [|item environ IH]; intros self H Hwf; simpl in H.
    - now injection H as <-.
    - destruct (load_auth_entry self item) as [self'|e] eqn:E; [|discriminate].
      apply (IH self' H).
      apply load_auth_entry_table in E as [-> | (k & cred & _ & Hu & Hp & ->)];
        [exact Hwf|].
      cbn [auth_credentials set_auth_credentials].
      apply (forall_set _ (fun c => PyDict.mem c "username" = true
                                    /\ PyDict.mem c "password" = true));
        [exact Hwf | now split]. }
  split; [exact Hc|].
  intros url parsed Hp. unfold get_auth_for_url. rewrite Hp.
  destruct (PyStr.contains "twilio.com" (PyStr.lower (netloc parsed))
            && truthy (twilio_account_sid config)
            && truthy (twilio_auth_token config)); [eexists; reflexivity|].
  destruct (PyDict.get (auth_credentials config) (PyStr.lower (netloc parsed)))
    as [cred|] eqn:Hg; [|eexists; reflexivity].
  destruct (forall_get _ (fun c => PyDict.mem c "username" = true
                                   /\ PyDict.mem c "password" = true)
              _ _ _ Hc Hg) as [Hu Hpw].
  unfold subscript. unfold PyDict.mem in Hu, Hpw.
  destruct (PyDict.get cred "username"); [|discriminate].
  destruct (PyDict.get cred "password"); [|discriminate].
  eexists; reflexivity.
Qed.

(** X12: An AUTH_ entry with both separators whose base URL [urlparse] refuses
    (an unbalanced bracket in the host, say) is not skipped: the exception
    leaves the loader, whatever entries come after it. *)
Theorem load_auth_from_env_raises_on_bad_base
    (before after : list (string * string)) (self config : TwilioConfig)
    (key base user pw : string) (e : exn) :
  load_auth_from_env before self = Ok config ->
  PyStr.startswith key "AUTH_" = true ->
  PyStr.has_char "|" base = false ->
  PyStr.has_char ":" user = false ->
  urlparse base = Raise e ->
  load_auth_from_env
    (before ++ (key, (base ++ String "|" (user ++ String ":" pw))%string) :: after)%list
    self
  = Raise e.
Proof.
  intros Hb Hk Hbar Hcol Hp. revert self Hb.
  induction before as [|item before IH]; intros self Hb; simpl in Hb |- *.
  - injection Hb as ->. unfold load_auth_entry.
    rewrite Hk, (partition_app _ _ _ Hbar), (partition_app _ _ _ Hcol), Hp.
    reflexivity.
  - destruct (load_auth_entry self item) as [self'|e']; [|discriminate].
    now apply IH.
Qed.

(** X13: Registering a route for one network location leaves the answer for
    every URL with another network location as it was. *)
Theorem load_auth_entry_leaves_other_hosts (self : TwilioConfig)
    (key base user pw : string) (parsed : ParseResult)
    (url : string) (parsed_url : ParseResult) :
  PyStr.startswith key "AUTH_" = true ->
  PyStr.has_char "|" base = false ->
  PyStr.has_char ":" user = false ->
  urlparse base = Ok parsed ->
  urlparse url = Ok parsed_url ->
  PyStr.lower (netloc parsed_url) <> PyStr.lower (netloc parsed) ->
  exists config,
    load_auth_entry self (key, base ++ String "|" (user ++ String ":" pw)) = Ok config
    /\ get_auth_for_url config url = get_auth_for_url self url.
Proof.
  intros Hk Hbar Hcol Hp Hpu Hne.
  destruct (netloc parsed) as [|c nl] eqn:Hn.
  - exists self. split; [|reflexivity].
    unfold load_auth_entry.
    rewrite Hk, (partition_app _ _ _ Hbar), (partition_app _ _ _ Hcol), Hp.
    cbv beta iota. rewrite Hn. reflexivity.
  - eexists. split.
    + apply (load_auth_entry_registers self key base user pw parsed Hk Hbar Hcol Hp).
      rewrite ?Hn. discriminate.
    + unfold get_auth_for_url. rewrite Hpu.
      cbn [auth_credentials set_auth_credentials twilio_account_sid twilio_auth_token].
      rewrite get_set_other; [reflexivity|].
      rewrite Hn. intros H. apply Hne. symmetry. exact H.
Qed.

(** *** Resolving credentials *)

(** X14: The router never invents credentials: a pair it returns is the twilio
    pair (both parts non-empty, for a network location that contains
    "twilio.com"), or the user name and password stored in the table under
    the lowercased network location of the URL. *)
Theorem get_auth_for_url_sources (config : TwilioConfig) (url u p : string) :
  get_auth_for_url config url = Ok (Some (u, p)) ->
  exists parsed,
    urlparse url = Ok parsed
    /\ ((u = twilio_account_sid config /\ p = twilio_auth_token config
         /\ u <> EmptyString /\ p <> EmptyString
         /\ PyStr.contains "twilio.com" (PyStr.lower (netloc parsed)) = true)
        \/ exists cred,
             PyDict.get (auth_credentials config) (PyStr.lower (netloc parsed))
             = Some cred
             /\ PyDict.get cred "username" = Some u
             /\ PyDict.get cred "password" = Some p).
Proof.
  unfold get_auth_for_url.
  destruct (urlparse url) as [parsed|e]; [|discriminate].
  intros H. exists parsed. split; [reflexivity|].
  destruct (PyStr.contains "twilio.com" (PyStr.lower (netloc parsed))) eqn:Hc;
    cbn [andb] in H.
  - destruct (twilio_account_sid config) as [|a sid] eqn:Hsid; cbn in H.
    + right.
      destruct (PyDict.get (auth_credentials config) (PyStr.lower (netloc parsed)))
        as [cred|]; [|discriminate].
      exists cred. split; [reflexivity|]. unfold subscript in H.
      destruct (PyDict.get cred "username"); [|discriminate].
      destruct (PyDict.get cred "password"); [|discriminate].
      injection H as -> ->. split; reflexivity.
    + destruct (twilio_auth_token config) as [|b tok] eqn:Htok; cbn in H.
      * right.
        destruct (PyDict.get (auth_credentials config) (PyStr.lower (netloc parsed)))
          as [cred|]; [|discriminate].
        exists cred. split; [reflexivity|]. unfold subscript in H.
        destruct (PyDict.get cred "username"); [|discriminate].
        destruct (PyDict.get cred "password"); [|discriminate].
        injection H as -> ->. split; reflexivity.
      * left. injection H as <- <-. repeat split; discriminate.
  - right.
    destruct (PyDict.get (auth_credentials config) (PyStr.lower (netloc parsed)))
      as [cred|]; [|discriminate].
    exists cred. split; [reflexivity|]. unfold subscript in H.
    destruct (PyDict.get cred "username"); [|discriminate].
    destruct (PyDict.get cred "password"); [|discriminate].
    injection H as -> ->. split; reflexivity.
Qed.

(** X15: With only one of the two twilio secrets set (or none), a twilio URL is
    treated like any other: without a table entry for its network location
    it gets no credentials. *)
Theorem get_auth_for_url_half_configured (config : TwilioConfig) (url : string)
    (parsed : ParseResult) :
  twilio_account_sid config = EmptyString \/ twilio_auth_token config = EmptyString ->
  urlparse url = Ok parsed ->
  PyDict.get (auth_credentials config) (PyStr.lower (netloc parsed)) = None ->
  get_auth_for_url config url = Ok None.
Proof.
  intros Hh Hp Hg. unfold get_auth_for_url. rewrite Hp, Hg.
  destruct Hh as [-> | ->]; cbn [truthy PyStr.is_empty negb];
    rewrite ?andb_false_r; reflexivity.
Qed.

(** The network location of "http(s)://" + host + tail, for a host without
    slash, question mark, hash, bracket, tab, carriage return or line feed
    and a tail that is empty or starts with a slash, a question mark or a
    hash, is the host as written. *)
Lemma splitnetloc_plain_host (host tail : string) :
  PyStr.forallb_str
    (fun c => negb (netloc_delim c || unsafe_url_byte c)) host = true ->
  (tail = EmptyString \/ exists c r, tail = String c r /\ netloc_delim c = true) ->
  splitnetloc (PyStr.remove_chars unsafe_url_byte (host ++ tail))
  = (host, PyStr.remove_chars unsafe_url_byte tail).
Proof.
  intros Hh Ht. induction host as [|a host IH]; simpl in *.
  - destruct Ht as [-> | (c & r & -> & Hc)]; [reflexivity|].
    rewrite (remove_unsafe_delim c r Hc). simpl. now rewrite Hc.
  - apply andb_true_iff in Hh as [Ha Hh]. apply negb_true_iff in Ha.
    apply orb_false_iff in Ha as [Hd Hu]. rewrite Hu. simpl. rewrite Hd.
    now rewrite (IH Hh).
Qed.

Lemma urlparse_plain_host (tls : bool) (host tail : string) :
  PyStr.forallb_str
    (fun c => negb (netloc_delim c || unsafe_url_byte c)) host = true ->
  PyStr.has_char "[" host = false ->
  PyStr.has_char "]" host = false ->
  (tail = EmptyString \/ exists c r, tail = String c r /\ netloc_delim c = true) ->
  exists parsed,
    urlparse ((if tls then "https://" else "http://") ++ host ++ tail) = Ok parsed
    /\ netloc parsed = host.
Proof.
  intros Hh Ho Hc Ht. rewrite urlparse_http, (splitnetloc_plain_host host tail Hh Ht).
  unfold check_brackets. rewrite Ho, Hc. cbn [andb orb negb].
  destruct (cut "#" (PyStr.remove_chars unsafe_url_byte tail)) as [u5 fr].
  destruct (cut "?" u5) as [u6 q].
  destruct (if PyStr.has_char ";" u6 then splitparams u6 else (u6, EmptyString))
    as [p prm].
  eexists. split; reflexivity.
Qed.

(** X16: Credentials are selected by the network location alone, without
    regard to case: two URLs that [urlparse] accepts (hosts written in
    brackets included) and whose network locations are equal up to case get
    the same answer from the router, whatever their schemes, paths, queries
    and fragments are. In particular, for text of code points below 256: two
    "http://" or "https://" URLs whose hosts are equal up to case and hold
    no slash, question mark, hash, bracket, tab, carriage return or line
    feed, each followed by nothing or by a path, query or fragment, get the
    same answer. *)
Theorem get_auth_for_url_by_netloc_alone :
  (forall (config : TwilioConfig) (url1 url2 : string) (parsed1 parsed2 : ParseResult),
      urlparse url1 = Ok parsed1 ->
      urlparse url2 = Ok parsed2 ->
      PyStr.lower (netloc parsed1) = PyStr.lower (netloc parsed2) ->
      get_auth_for_url config url1 = get_auth_for_url config url2)
  /\ (forall (config : TwilioConfig) (tls1 tls2 : bool)
             (host1 host2 tail1 tail2 : string),
        PyStr.forallb_str
          (fun c => negb (netloc_delim c || unsafe_url_byte c)) host1 = true ->
        PyStr.forallb_str
          (fun c => negb (netloc_delim c || unsafe_url_byte c)) host2 = true ->
        PyStr.has_char "[" host1 || PyStr.has_char "]" host1 = false ->
        PyStr.has_char "[" host2 || PyStr.has_char "]" host2 = false ->
        (tail1 = EmptyString
         \/ exists c r, tail1 = String c r /\ netloc_delim c = true) ->
        (tail2 = EmptyString
         \/ exists c r, tail2 = String c r /\ netloc_delim c = true) ->
        PyStr.lower host1 = PyStr.lower host2 ->
        get_auth_for_url config
          ((if tls1 then "https://" else "http://") ++ host1 ++ tail1)
        = get_auth_for_url config
            ((if tls2 then "https://" else "http://") ++ host2 ++ tail2)).
Proof.
  assert (Hgen : forall (config : TwilioConfig) (url1 url2 : string)
                        (parsed1 parsed2 : ParseResult),
             urlparse url1 = Ok parsed1 ->
             urlparse url2 = Ok parsed2 ->
             PyStr.lower (netloc parsed1) = PyStr.lower (netloc parsed2) ->
             get_auth_for_url config url1 = get_auth_for_url config url2).
  { intros config url1 url2 parsed1 parsed2 P1 P2 Hl.
    unfold get_auth_for_url. rewrite P1, P2, Hl. reflexivity. }
  split; [exact Hgen|].
  intros config tls1 tls2 host1 host2 tail1 tail2 H1 H2 B1 B2 T1 T2 Hl.
  apply orb_false_iff in B1 as [O1 C1]. apply orb_false_iff in B2 as [O2 C2].
  destruct (urlparse_plain_host tls1 host1 tail1 H1 O1 C1 T1) as (p1 & P1 & N1).
  destruct (urlparse_plain_host tls2 host2 tail2 H2 O2 C2 T2) as (p2 & P2 & N2).
  apply (Hgen config _ _ p1 p2 P1 P2). now rewrite N1, N2.
Qed.

(** X17: The value the tool returns depends on the configuration only through
    the credentials put on the request: with two configurations for which
    the remote side answers alike, the returned values are equal. The tool
    itself never copies a credential into its result. *)
Theorem download_result_depends_on_auth_only (config1 config2 : TwilioConfig)
    (url : string) (auth1 auth2 : option (string * string)) :
  get_auth_for_url config1 url = Ok auth1 ->
  get_auth_for_url config2 url = Ok auth2 ->
  requests_get (mkRequest url auth1 true 30) = requests_get (mkRequest url auth2 true 30) ->
  fst (download_twilio_audio config1 url) = fst (download_twilio_audio config2 url).
Proof.
  intros Ha1 Ha2 Hr.
  unfold download_twilio_audio, download_body.
  destruct (negb (PyStr.startswith url "http://" || PyStr.startswith url "https://"));
    [reflexivity|].
  destruct (urlparse url) as [parsed|e]; [|reflexivity].
  destruct (negb (truthy (netloc parsed))); [reflexivity|].
  rewrite Ha1, Ha2.
  unfold lift, http_get, bind, try_except, ret. cbv beta iota zeta.
  rewrite Hr.
  destruct (requests_get (mkRequest url auth2 true 30)) as [response|e];
    [|handler_cases e; reflexivity].
  cbv beta iota zeta.
  destruct (raise_for_status response) as [[]|e];
    [|handler_cases e; reflexivity].
  cbv beta iota zeta. unfold iter_content.
  destruct (stream_exn response) as [e|]; [handler_cases e; reflexivity|].
  cbv beta iota zeta.
  destruct (List.length (fst (read_chunks (chunks response) ([], 0%Z))) =? 0)%nat;
    [reflexivity|].
  unfold file_url.
  match goal with |- context [FileUrl ?u] => destruct (FileUrl u) as [uri|msg] end;
    reflexivity.
Qed.

(** *** The buffered body and the file name *)

(** X18: The loop keeps [bytes_downloaded = len(audio_data)], and it leaves in the
    buffer the bytes of the chunks in the order they came: how the stream is
    cut into chunks (empty ones included) makes no difference. *)
Theorem read_chunks_invariant (cs cs' : list (list byte)) (st : list byte * Z) :
  snd st = Z.of_nat (List.length (fst st)) ->
  snd (read_chunks cs st) = Z.of_nat (List.length (fst (read_chunks cs st)))
  /\ fst (read_chunks cs st) = (fst st ++ List.concat cs)%list
  /\ (List.concat cs = List.concat cs' -> read_chunks cs st = read_chunks cs' st).
Proof.
  intros Hst. rewrite !read_chunks_spec. cbn [fst snd].
  split; [rewrite Hst, length_app; lia|].
  split; [reflexivity|].
  intros ->. reflexivity.
Qed.

Lemma headers_get_absent (h : PyDict.dict string) (name default : string) :
  Forall (fun kv => PyStr.lower (fst kv) <> PyStr.lower name) h ->
  headers_get h name default = default.
Proof.
  induction h as [|[k v] h IH]; simpl; intros H; [reflexivity|].
  inversion H as [|? ? Hk Hh]; subst. simpl in Hk.
  destruct (String.eqb (PyStr.lower k) (PyStr.lower name)) eqn:E;
    [apply String.eqb_eq in E; contradiction | now apply IH].
Qed.

(** X19: A successful fetch whose response has no content-type header (under any
    capitalisation) is reported as "application/octet-stream", and its file
    name gets the extension ".bin". *)
Theorem download_without_content_type (config : TwilioConfig) (url : string)
    (parsed : ParseResult) (auth : option (string * string)) (response : Response)
    (uri : string) :
  PyStr.startswith url "http://" || PyStr.startswith url "https://" = true ->
  urlparse url = Ok parsed ->
  netloc parsed <> EmptyString ->
  get_auth_for_url config url = Ok auth ->
  requests_get (mkRequest url auth true 30) = Ok response ->
  raise_for_status response = Ok tt ->
  stream_exn response = None ->
  List.concat (chunks response) <> [] ->
  Forall (fun kv => PyStr.lower (fst kv) <> "content-type") (headers response) ->
  FileUrl ("file://twilio_audio_"
             ++ last (PyStr.split "/" (path parsed)) EmptyString ++ ".bin") = inl uri ->
  download_twilio_audio config url
  = (Ok (EmbeddedResource uri (Base64.b64encode (List.concat (chunks response)))
           "application/octet-stream"),
     [mkRequest url auth true 30]).
Proof.
  intros Hs Hp Hn Ha Hg Hr Hx Hb Hh Hu.
  rewrite (download_with_response config url parsed auth response Hs Hp Hn Ha Hg).
  cbv zeta. rewrite Hr, Hx.
  rewrite (headers_get_absent (headers response) "content-type"
             "application/octet-stream" Hh).
  destruct (List.concat (chunks response)) as [|b bs]; [contradiction|].
  change (get_file_extension_from_content_type "application/octet-stream") with ".bin".
  unfold file_url.
  change ("file://" ++ "twilio_audio_"
            ++ last (PyStr.split "/" (path parsed)) EmptyString ++ ".bin")
    with ("file://twilio_audio_"
            ++ last (PyStr.split "/" (path parsed)) EmptyString ++ ".bin").
  rewrite Hu. reflexivity.
Qed.





(** X21: A fetch that succeeds returns, after its one request, the embedded
    resource whose blob is the base64 text of all the bytes of the body, in
    the order they arrived, whose MIME type is the content-type header as the
    remote side sent it (parameters and case kept), and whose URI is the
    validated "file://twilio_audio_<last path segment><extension>". *)
Theorem download_returns_the_buffered_bytes (config : TwilioConfig) (url : string)
    (parsed : ParseResult) (auth : option (string * string)) (response : Response)
    (uri : string) :
  PyStr.startswith url "http://" || PyStr.startswith url "https://" = true ->
  urlparse url = Ok parsed ->
  netloc parsed <> EmptyString ->
  get_auth_for_url config url = Ok auth ->
  requests_get (mkRequest url auth true 30) = Ok response ->
  raise_for_status response = Ok tt ->
  stream_exn response = None ->
  List.concat (chunks response) <> [] ->
  let content_type :=
    headers_get (headers response) "content-type" "application/octet-stream" in
  FileUrl ("file://twilio_audio_"
             ++ last (PyStr.split "/" (path parsed)) EmptyString
             ++ get_file_extension_from_content_type content_type) = inl uri ->
  download_twilio_audio config url
  = (Ok (EmbeddedResource uri (Base64.b64encode (List.concat (chunks response)))
           content_type),
     [mkRequest url auth true 30]).
Proof.
  intros Hs Hp Hn Ha Hg Hr Hx Hb content_type Hu.
  rewrite (download_with_response config url parsed auth response Hs Hp Hn Ha Hg).
  cbv zeta. fold content_type. rewrite Hr, Hx.
  destruct (List.concat (chunks response)) as [|b bs]; [contradiction|].
  unfold file_url.
  change ("file://" ++ "twilio_audio_"
            ++ last (PyStr.split "/" (path parsed)) EmptyString
            ++ get_file_extension_from_content_type content_type)
    with ("file://twilio_audio_"
            ++ last (PyStr.split "/" (path parsed)) EmptyString
            ++ get_file_extension_from_content_type content_type).
  rewrite Hu. reflexivity.
Qed.

(** *** The content-type resolver *)

Lemma hd_split_none (c : ascii) (s : string) :
  PyStr.has_char c s = false -> hd EmptyString (PyStr.split c s) = s.
Proof.
  induction s as [|a s IH]; simpl; intros H; [reflexivity|].
  apply orb_false_iff in H as [Ha Hs]. rewrite Ha.
  pose proof (split_nonempty c s) as Hne.
  destruct (PyStr.split c s) as [|h t]; [contradiction|].
  simpl in *. now rewrite (IH Hs).
Qed.

Lemma hd_split_app (c : ascii) (a b : string) :
  PyStr.has_char c a = false ->
  hd EmptyString (PyStr.split c (a ++ String c b)) = a.
Proof.
  induction a as [|x a IH]; simpl; intros H.
  - now rewrite Ascii.eqb_refl.
  - apply orb_false_iff in H as [Hx Ha]. rewrite Hx.
    pose proof (split_nonempty c (a ++ String c b)) as Hne.
    destruct (PyStr.split c (a ++ String c b)) as [|h t]; [contradiction|].
    simpl in *. now rewrite (IH Ha).
Qed.

Lemma strip_leading_space (c : ascii) (s : string) :
  PyStr.isspace c = true -> PyStr.strip (String c s) = PyStr.strip s.
Proof.
  intros Hc. unfold PyStr.strip. simpl. rewrite Hc. simpl.
  destruct (PyStr.rstrip_by PyStr.isspace s) eqn:E; simpl; [reflexivity|].
  now rewrite Hc.
Qed.

(** X22: The resolver looks at the media type only: the case of the header, any
    parameters after a semicolon and white space in front of the media type
    do not change the extension. *)
Theorem resolver_ignores_case_parameters_and_space (content_type : string) :
  get_file_extension_from_content_type (PyStr.lower content_type)
  = get_file_extension_from_content_type content_type
  /\ (forall parameters,
        PyStr.has_char ";" content_type = false ->
        get_file_extension_from_content_type (content_type ++ String ";" parameters)
        = get_file_extension_from_content_type content_type)
  /\ (forall c,
        PyStr.isspace c = true ->
        get_file_extension_from_content_type (String c content_type)
        = get_file_extension_from_content_type content_type).
Proof.
  unfold get_file_extension_from_content_type.
  split; [|split].
  - unfold normalize_content_type. now rewrite lower_idempotent.
  - intros parameters H. rewrite !normalize_refines_spec. unfold spec_normalize.
    now rewrite (hd_split_app _ _ _ H), (hd_split_none _ _ H).
  - intros c Hc. rewrite !normalize_refines_spec. unfold spec_normalize.
    assert (Hsc : Ascii.eqb c ";" = false).
    { revert Hc. clear. destruct c as [[] [] [] [] [] [] [] []]; cbn; easy. }
    cbn [PyStr.split]. rewrite Hsc.
    pose proof (split_nonempty ";" content_type) as Hne.
    destruct (PyStr.split ";" content_type) as [|h t]; [contradiction|].
    cbn [hd]. now rewrite (strip_leading_space c h Hc).
Qed.

(** X23: The resolver and the configuration report agree: every extension the
    resolver gives, the fallback ".bin" apart, is a dot followed by one of
    the reported audio formats, and every reported format is the extension
    of some content type. *)
Theorem resolver_extensions_are_the_reported_formats :
  (forall content_type,
      get_file_extension_from_content_type content_type = ".bin"
      \/ exists format,
           In format supported_audio_formats
           /\ get_file_extension_from_content_type content_type = String "." format)
  /\ (forall format,
        In format supported_audio_formats ->
        exists content_type,
          get_file_extension_from_content_type content_type = String "." format).
Proof.
  clear check_bracketed_netloc FileUrl requests_get.
  split.
  - intros ct. unfold get_file_extension_from_content_type.
    destruct (PyDict.get extension_map (normalize_content_type ct)) as [ext|] eqn:E;
      [right | left; reflexivity].
    apply get_some_in_values in E. simpl in E.
    repeat (destruct E as [<- | E];
            [eexists; split; [|reflexivity]; simpl; tauto|]).
    contradiction.
  - intros format H. simpl in H.
    destruct H as [<- | [<- | [<- | [<- | [<- | [<- | [<- | [<- | [<- | []]]]]]]]]].
    + exists "audio/wav". reflexivity.
    + exists "audio/mpeg". reflexivity.
    + exists "audio/mp4". reflexivity.
    + exists "audio/aac". reflexivity.
    + exists "audio/ogg". reflexivity.
    + exists "audio/flac". reflexivity.
    + exists "audio/webm". reflexivity.
    + exists "audio/3gpp". reflexivity.
    + exists "audio/amr". reflexivity.
Qed.

(** *** The base64 blob *)

Lemma list_ind3 (A : Type) (P : list A -> Prop) :
  P [] -> (forall a, P [a]) -> (forall a b, P [a; b]) ->
  (forall a b c l, P l -> P (a :: b :: c :: l)) ->
  forall l, P l.
Proof.
  intros H0 H1 H2 H3.
  assert (H : forall l, P l /\ (forall a, P (a :: l)) /\ (forall a b, P (a :: b :: l))).
  { induction l as [|x l (Ha & Hb & Hc)]; [now repeat split|].
    split; [apply Hb|]. split; [intros a; apply Hc|]. intros a b. now apply H3. }
  intros l. apply H.
Qed.

Lemma to_N_in_bytes (x : byte) : In (Byte.to_N x) (map N.of_nat (seq 0 256)).
Proof.
  rewrite <- (N2Nat.id (Byte.to_N x)). apply in_map. apply in_seq.
  pose proof (Byte.to_N_bounded x). lia.
Qed.

Lemma sextet_index (n : N) :
  (n < 64)%N ->
  b64_index (Base64.sextet n) = Some n
  /\ Ascii.eqb (Base64.sextet n) Base64.pad = false.
Proof.
  intros Hn.
  assert (H : forallb (fun m =>
                match b64_index (Base64.sextet m) with
                | Some k => (k =? m)%N
                | None => false
                end && negb (Ascii.eqb (Base64.sextet m) Base64.pad))
                (map N.of_nat (seq 0 64)) = true) by (vm_compute; reflexivity).
  rewrite forallb_forall in H.
  assert (Hin : In n (map N.of_nat (seq 0 64))).
  { rewrite <- (N2Nat.id n). apply in_map. apply in_seq. lia. }
  specialize (H n Hin). cbv beta in H.
  apply andb_true_iff in H as [H1 H2]. apply negb_true_iff in H2.
  split; [|exact H2].
  destruct (b64_index (Base64.sextet n)) as [k|]; [|discriminate].
  apply N.eqb_eq in H1. now subst.
Qed.

(** The first two characters of a group give back its first byte. *)
Lemma group_first (x y : byte) :
  let X := Byte.to_N x in
  let Y := Byte.to_N y in
  let s1 := N.shiftr X 2 in
  let s2 := N.lor (N.shiftl (N.land X 3) 4) (N.shiftr Y 4) in
  let s2' := N.shiftl (N.land X 3) 4 in
  (s1 < 64 /\ s2 < 64 /\ s2' < 64)%N
  /\ N.lor (N.shiftl s1 2) (N.shiftr s2 4) = X
  /\ N.lor (N.shiftl s1 2) (N.shiftr s2' 4) = X
  /\ N.land s2 15 = N.shiftr Y 4.
Proof.
  assert (H : forallb (fun X => forallb (fun Y =>
                let s1 := N.shiftr X 2 in
                let s2 := N.lor (N.shiftl (N.land X 3) 4) (N.shiftr Y 4) in
                let s2' := N.shiftl (N.land X 3) 4 in
                (s1 <? 64)%N && (s2 <? 64)%N && (s2' <? 64)%N
                && (N.lor (N.shiftl s1 2) (N.shiftr s2 4) =? X)%N
                && (N.lor (N.shiftl s1 2) (N.shiftr s2' 4) =? X)%N
                && (N.land s2 15 =? N.shiftr Y 4)%N)
                (map N.of_nat (seq 0 256))) (map N.of_nat (seq 0 256)) = true)
    by (vm_compute; reflexivity).
  rewrite forallb_forall in H. specialize (H _ (to_N_in_bytes x)).
  rewrite forallb_forall in H. specialize (H _ (to_N_in_bytes y)).
  cbv beta zeta in H |- *.
  repeat (apply andb_true_iff in H as [H ?]).
  repeat match goal with
         | K : (_ <? _)%N = true |- _ => apply N.ltb_lt in K
         | K : (_ =? _)%N = true |- _ => apply N.eqb_eq in K
         end.
  repeat split; assumption.
Qed.

(** The last two characters of a group give back its third byte and the low
    half of its second. *)
Lemma group_last (y z : byte) :
  let Y := Byte.to_N y in
  let Z := Byte.to_N z in
  let s3 := N.lor (N.shiftl (N.land Y 15) 2) (N.shiftr Z 6) in
  let s3' := N.shiftl (N.land Y 15) 2 in
  let s4 := N.land Z 63 in
  (s3 < 64 /\ s3' < 64 /\ s4 < 64)%N
  /\ N.shiftr s3 2 = N.land Y 15
  /\ N.shiftr s3' 2 = N.land Y 15
  /\ N.lor (N.shiftl (N.land s3 3) 6) s4 = Z
  /\ N.lor (N.shiftl (N.shiftr Y 4) 4) (N.land Y 15) = Y.
Proof.
  assert (H : forallb (fun Y => forallb (fun Z =>
                let s3 := N.lor (N.shiftl (N.land Y 15) 2) (N.shiftr Z 6) in
                let s3' := N.shiftl (N.land Y 15) 2 in
                let s4 := N.land Z 63 in
                (s3 <? 64)%N && (s3' <? 64)%N && (s4 <? 64)%N
                && (N.shiftr s3 2 =? N.land Y 15)%N
                && (N.shiftr s3' 2 =? N.land Y 15)%N
                && (N.lor (N.shiftl (N.land s3 3) 6) s4 =? Z)%N
                && (N.lor (N.shiftl (N.shiftr Y 4) 4) (N.land Y 15) =? Y)%N)
                (map N.of_nat (seq 0 256))) (map N.of_nat (seq 0 256)) = true)
    by (vm_compute; reflexivity).
  rewrite forallb_forall in H. specialize (H _ (to_N_in_bytes y)).
  rewrite forallb_forall in H. specialize (H _ (to_N_in_bytes z)).
  cbv beta zeta in H |- *.
  repeat (apply andb_true_iff in H as [H ?]).
  repeat match goal with
         | K : (_ <? _)%N = true |- _ => apply N.ltb_lt in K
         | K : (_ =? _)%N = true |- _ => apply N.eqb_eq in K
         end.
  repeat split; assumption.
Qed.

Lemma b64_byte_to_N (x : byte) : b64_byte (Byte.to_N x) = Some x.
Proof. unfold b64_byte. apply Byte.of_to_N. Qed.

Lemma decode_group3 (x y z : byte) :
  let X := Byte.to_N x in
  let Y := Byte.to_N y in
  let Z := Byte.to_N z in
  b64decode_group
    (Base64.sextet (N.shiftr X 2))
    (Base64.sextet (N.lor (N.shiftl (N.land X 3) 4) (N.shiftr Y 4)))
    (Base64.sextet (N.lor (N.shiftl (N.land Y 15) 2) (N.shiftr Z 6)))
    (Base64.sextet (N.land Z 63))
  = Some [x; y; z]
  /\ Ascii.eqb (Base64.sextet (N.land Z 63)) Base64.pad = false.
Proof.
  cbv zeta.
  destruct (group_first x y) as ((A1 & A2 & _) & A3 & _ & A4).
  destruct (group_last y z) as ((B1 & _ & B2) & B3 & _ & B4 & B5).
  cbv zeta in *.
  destruct (sextet_index _ A1) as [I1 _]. destruct (sextet_index _ A2) as [I2 _].
  destruct (sextet_index _ B1) as [I3 P3]. destruct (sextet_index _ B2) as [I4 P4].
  split; [|exact P4].
  unfold b64decode_group.
  rewrite I1, I2, A3, b64_byte_to_N, P3, I3, A4, B3, B5, b64_byte_to_N, P4, I4, B4,
    b64_byte_to_N.
  reflexivity.
Qed.

Lemma decode_group2 (x y : byte) :
  let X := Byte.to_N x in
  let Y := Byte.to_N y in
  b64decode_group
    (Base64.sextet (N.shiftr X 2))
    (Base64.sextet (N.lor (N.shiftl (N.land X 3) 4) (N.shiftr Y 4)))
    (Base64.sextet (N.shiftl (N.land Y 15) 2))
    Base64.pad
  = Some [x; y].
Proof.
  cbv zeta.
  destruct (group_first x y) as ((A1 & A2 & _) & A3 & _ & A4).
  destruct (group_last y y) as ((_ & B1 & _) & _ & B3 & _ & B5).
  cbv zeta in *.
  destruct (sextet_index _ A1) as [I1 _]. destruct (sextet_index _ A2) as [I2 _].
  destruct (sextet_index _ B1) as [I3 P3].
  unfold b64decode_group.
  rewrite I1, I2, A3, b64_byte_to_N, P3, I3, A4, B3, B5, b64_byte_to_N.
  reflexivity.
Qed.

Lemma decode_group1 (x : byte) :
  let X := Byte.to_N x in
  b64decode_group
    (Base64.sextet (N.shiftr X 2))
    (Base64.sextet (N.shiftl (N.land X 3) 4))
    Base64.pad Base64.pad
  = Some [x].
Proof.
  cbv zeta.
  destruct (group_first x x) as ((A1 & _ & A2) & _ & A3 & _).
  cbv zeta in *.
  destruct (sextet_index _ A1) as [I1 _]. destruct (sextet_index _ A2) as [I2 _].
  unfold b64decode_group.
  rewrite I1, I2, A3, b64_byte_to_N.
  reflexivity.
Qed.

(** X24: Base64 loses nothing: the text [b64encode] gives reads back as the very
    bytes it was given, and it has four characters for every three bytes,
    the last group padded. *)
Theorem b64encode_round_trip (data : list byte) :
  b64decode (Base64.b64encode data) = Some data
  /\ String.length (Base64.b64encode data) = (4 * ((List.length data + 2) / 3))%nat.
Proof.
  induction data as [| a | a b | a b c rest [IHd IHl]] using list_ind3.
  - split; reflexivity.
  - split; [|reflexivity].
    cbn [Base64.b64encode b64decode]. rewrite decode_group1.
    rewrite Ascii.eqb_refl. reflexivity.
  - split; [|reflexivity].
    cbn [Base64.b64encode b64decode]. rewrite decode_group2.
    rewrite Ascii.eqb_refl. reflexivity.
  - destruct (decode_group3 a b c) as [G P]. cbv zeta in G, P.
    split.
    + cbn [Base64.b64encode b64decode]. rewrite G, P, IHd. reflexivity.
    + cbn [Base64.b64encode String.length List.length]. rewrite IHl.
      replace (S (S (S (List.length rest))) + 2)%nat
        with ((List.length rest + 2) + 1 * 3)%nat by lia.
      rewrite Nat.div_add by discriminate. lia.
Qed.

(** *** Routes, report and requests together *)

Lemma load_auth_from_env_wf (environ : list (string * string))
    (self config : TwilioConfig) :
  load_auth_from_env environ self = Ok config ->
  Forall (fun kv => PyDict.mem (snd kv) "username" = true
                    /\ PyDict.mem (snd kv) "password" = true)
    (auth_credentials self) ->
  Forall (fun kv => PyDict.mem (snd kv) "username" = true
                    /\ PyDict.mem (snd kv) "password" = true)
    (auth_credentials config).
Proof.
  revert self. induction environ as [|item environ IH]; intros self H Hwf; simpl in H.
  - now injection H as <-.
  - destruct (load_auth_entry self item) as [self'|e] eqn:E; [|discriminate].
    apply (IH self' H).
    apply load_auth_entry_table in E as [-> | (k & cred & _ & Hu & Hp & ->)];
      [exact Hwf|].
    cbn [auth_credentials set_auth_credentials].
    apply (forall_set _ (fun c => PyDict.mem c "username" = true
                                  /\ PyDict.mem c "password" = true));
      [exact Hwf | now split].
Qed.

Lemma subscript_wf (config : TwilioConfig) (k : string) (cred : PyDict.dict string) :
  Forall (fun kv => PyDict.mem (snd kv) "username" = true
                    /\ PyDict.mem (snd kv) "password" = true)
    (auth_credentials config) ->
  PyDict.get (auth_credentials config) k = Some cred ->
  exists u p, subscript cred "username" = Ok u /\ subscript cred "password" = Ok p.
Proof.
  intros Hwf Hg.
  destruct (forall_get _ (fun c => PyDict.mem c "username" = true
                                   /\ PyDict.mem c "password" = true)
              _ _ _ Hwf Hg) as [Hu Hp].
  unfold subscript. unfold PyDict.mem in Hu, Hp.
  destruct (PyDict.get cred "username") as [u|]; [|discriminate].
  destruct (PyDict.get cred "password") as [p|]; [|discriminate].
  now exists u, p.
Qed.

Lemma in_keys_get (V : Type) (d : PyDict.dict V) (k : string) :
  In k (PyDict.keys d) -> exists v, PyDict.get d k = Some v.
Proof.
  induction d as [|[k' v'] d IH]; simpl; intros H; [destruct H|].
  destruct (String.eqb k' k) eqn:E; [now exists v'|].
  destruct H as [H | H]; [|now apply IH].
  subst k'. rewrite String.eqb_refl in E. discriminate.
Qed.

(** X25: Every domain that the configuration report lists has credentials: a URL
    whose lowercased network location is a listed domain gets a pair from the
    router (that of the table, or the twilio pair when the twilio rule
    applies). *)
Theorem reported_domains_have_credentials (environ : list (string * string))
    (self config : TwilioConfig) :
  load_auth_from_env environ self = Ok config ->
  Forall (fun kv => PyDict.mem (snd kv) "username" = true
                    /\ PyDict.mem (snd kv) "password" = true)
    (auth_credentials self) ->
  forall domain url parsed,
    In (VStr domain)
      (match field (get_server_config config) "additional_auth_domains" with
       | Some (VList l) => l
       | _ => []
       end) ->
    urlparse url = Ok parsed ->
    PyStr.lower (netloc parsed) = domain ->
    exists u p, get_auth_for_url config url = Ok (Some (u, p)).
Proof.
  intros Hload Hself domain url parsed Hin Hp Hd.
  pose proof (load_auth_from_env_wf environ self config Hload Hself) as Hwf.
  cbn in Hin. apply in_map_iff in Hin as (k & Hk & Hin). injection Hk as ->.
  destruct (in_keys_get _ _ _ Hin) as [cred Hg].
  destruct (subscript_wf config domain cred Hwf Hg) as (u & p & Hu & Hpw).
  unfold get_auth_for_url. rewrite Hp, Hd.
  destruct (PyStr.contains "twilio.com" domain
            && truthy (twilio_account_sid config)
            && truthy (twilio_auth_token config)); [now eexists; eexists|].
  rewrite Hg, Hu, Hpw. now exists u, p.
Qed.

(** X26: For text of code points below 256 (on which [urlparse] is modelled
    in full): an "http://" or "https://" URL with a non-empty host (no
    slash, question mark, hash, bracket, tab, carriage return or line feed in
    it), followed by nothing or by a path, query or fragment, is fetched: the
    tool issues exactly one request, for that URL, with the credentials the
    router selects (the entries of the table having a user name and a
    password). *)
Theorem download_requests_every_plain_url (config : TwilioConfig)
    (tls : bool) (host tail : string) :
  Forall (fun kv => PyDict.mem (snd kv) "username" = true
                    /\ PyDict.mem (snd kv) "password" = true)
    (auth_credentials config) ->
  host <> EmptyString ->
  PyStr.forallb_str
    (fun c => negb (netloc_delim c || unsafe_url_byte c)) host = true ->
  PyStr.has_char "[" host || PyStr.has_char "]" host = false ->
  (tail = EmptyString \/ exists c r, tail = String c r /\ netloc_delim c = true) ->
  let url := (if tls then "https://" else "http://") ++ host ++ tail in
  exists auth,
    get_auth_for_url config url = Ok auth
    /\ snd (download_twilio_audio config url) = [mkRequest url auth true 30].
Proof.
  intros Hwf Hne Hh Hb Ht url.
  apply orb_false_iff in Hb as [Ho Hc].
  destruct (urlparse_plain_host tls host tail Hh Ho Hc Ht) as (parsed & Hp & Hn).
  fold url in Hp.
  assert (Hs : PyStr.startswith url "http://" || PyStr.startswith url "https://" = true).
  { subst url. clear. destruct tls, host, tail; reflexivity. }
  assert (Ha : exists auth, get_auth_for_url config url = Ok auth).
  { unfold get_auth_for_url. rewrite Hp.
    destruct (PyStr.contains "twilio.com" (PyStr.lower (netloc parsed))
              && truthy (twilio_account_sid config)
              && truthy (twilio_auth_token config)); [eexists; reflexivity|].
    destruct (PyDict.get (auth_credentials config) (PyStr.lower (netloc parsed)))
      as [cred|] eqn:Hg; [|eexists; reflexivity].
    destruct (subscript_wf config _ cred Hwf Hg) as (u & p & Hu & Hpw).
    rewrite Hu, Hpw. eexists; reflexivity. }
  destruct Ha as [auth Ha]. exists auth. split; [exact Ha|].
  unfold download_twilio_audio, download_body.
  rewrite Hs, Hp, Hn. cbn [negb].
  destruct host as [|c0 host']; [contradiction|].
  cbn [negb truthy PyStr.is_empty]. rewrite Ha.
  unfold lift, http_get, bind, try_except, ret. cbv beta iota zeta.
  destruct (requests_get (mkRequest url auth true 30)) as [response|e];
    [|handler_cases e; reflexivity].
  cbv beta iota zeta.
  destruct (raise_for_status response) as [[]|e];
    [|handler_cases e; reflexivity].
  cbv beta iota zeta. unfold iter_content.
  destruct (stream_exn response) as [e|]; [handler_cases e; reflexivity|].
  cbv beta iota zeta.
  destruct (List.length (fst (read_chunks (chunks response) ([], 0%Z))) =? 0)%nat;
    [reflexivity|].
  unfold file_url.
  match goal with |- context [FileUrl ?u] => destruct (FileUrl u) as [uri|msg] end;
    reflexivity.
Qed.

Lemma has_char_lstrip (c : ascii) (p : ascii -> bool) (s : string) :
  PyStr.has_char c s = false -> PyStr.has_char c (PyStr.lstrip_by p s) = false.
Proof.
  induction s as [|a s IH]; simpl; intros H; [reflexivity|].
  apply orb_false_iff in H as [Ha Hs].
  destruct (p a); [now apply IH | simpl; now rewrite Ha, Hs].
Qed.

Lemma has_char_remove (c : ascii) (p : ascii -> bool) (s : string) :
  PyStr.has_char c s = false -> PyStr.has_char c (PyStr.remove_chars p s) = false.
Proof.
  induction s as [|a s IH]; simpl; intros H; [reflexivity|].
  apply orb_false_iff in H as [Ha Hs].
  destruct (p a); [now apply IH | simpl; now rewrite Ha, (IH Hs)].
Qed.

Lemma has_char_partition (c d : ascii) (s l r : string) :
  PyStr.partition d s = Some (l, r) ->
  PyStr.has_char c s = false -> PyStr.has_char c r = false.
Proof.
  revert l. induction s as [|a s IH]; simpl; intros l H Hc; [discriminate|].
  apply orb_false_iff in Hc as [Ha Hs].
  destruct (Ascii.eqb a d); [injection H as <- <-; exact Hs|].
  destruct (PyStr.partition d s) as [[l' r']|]; [|discriminate].
  injection H as <- <-. now apply (IH l').
Qed.

Lemma take2_without_slash (s : string) :
  PyStr.has_char "/" s = false -> String.eqb (PyStr.take2 s) "//" = false.
Proof.
  destruct s as [|a [|b s]]; simpl; intros H.
  - reflexivity.
  - destruct (Ascii.eqb a "/"); reflexivity.
  - apply orb_false_iff in H as [Ha _]. now rewrite Ha.
Qed.

(** A text without any slash has no network location. *)
Lemma urlparse_without_slash (base : string) :
  PyStr.has_char "/" base = false ->
  exists parsed, urlparse base = Ok parsed /\ netloc parsed = EmptyString.
Proof.
  intros H. unfold urlparse, urlsplit.
  pose proof (has_char_remove "/" unsafe_url_byte _
                (has_char_lstrip "/" c0_control_or_space _ H)) as H2.
  set (url2 := PyStr.remove_chars unsafe_url_byte
                 (PyStr.lstrip_by c0_control_or_space base)) in *.
  assert (H3 : PyStr.has_char "/" (snd (split_scheme url2)) = false).
  { unfold split_scheme.
    destruct (PyStr.partition ":" url2) as [[pre post]|] eqn:E; [|exact H2].
    destruct pre as [|c0 pre']; [exact H2|].
    destruct (ascii_alpha c0 && PyStr.forallb_str scheme_char (String c0 pre'));
      [|exact H2].
    exact (has_char_partition _ _ _ _ _ E H2). }
  destruct (split_scheme url2) as [sch url3]. cbn [snd] in H3.
  rewrite (take2_without_slash url3 H3).
  destruct (cut "#" url3) as [u5 fr]. destruct (cut "?" u5) as [u6 q].
  match goal with |- context [if ?b then splitparams u6 else _] => destruct b end;
    [destruct (splitparams u6)|]; eexists; split; reflexivity.
Qed.

(** X27: An AUTH_ entry whose base has no slash ("example.com|bob:secret",
    "example.com:8080|bob:secret": the scheme was left out) registers
    nothing and raises nothing. *)
Theorem load_auth_entry_skips_base_without_slash (self : TwilioConfig)
    (key base auth_part : string) :
  PyStr.has_char "/" base = false ->
  PyStr.has_char "|" base = false ->
  load_auth_entry self (key, base ++ String "|" auth_part) = Ok self.
Proof.
  intros Hs Hb. unfold load_auth_entry.
  destruct (urlparse_without_slash base Hs) as (parsed & Hp & Hn).
  rewrite (partition_app _ _ _ Hb), Hp. cbv beta iota. rewrite Hn.
  destruct (PyStr.startswith key "AUTH_"); [|reflexivity].
  destruct (PyStr.partition ":" auth_part) as [[u p]|]; reflexivity.
Qed.

End Server.

(** ** Closed instances *)

(** C1: at a fetch that succeeds (https URL with a host, status 200, three
    bytes in the body), whatever the URL validation answers: when it accepts
    the file URI, the tool returns the embedded resource with that URI, the
    MIME type and the base64 blob, and the value has no size field and no
    success flag, at the top level or inside the resource; when it rejects
    the file URI, the tool returns the failure object of the catch-all
    handler. *)
Theorem C1_success_result_lacks_size (FileUrl : string -> string + string) :
  let url := "https://api.twilio.com/rec/RE1" in
  let result :=
    download_twilio_audio Sample.check_ok FileUrl
      (Sample.serve (Sample.response 200 "OK" [[x52; x49]; []; [x46]]))
      Sample.twilio_config url in
  let issued := [mkRequest url (Some ("AC123", "tok456")) true 30] in
  match FileUrl "file://twilio_audio_RE1.wav" with
  | inl uri =>
      let v := EmbeddedResource uri "UklG" "audio/wav" in
      result = (Ok v, issued)
      /\ field v "size_bytes" = None
      /\ field v "size" = None
      /\ field v "success" = None
      /\ field v "resource"
         = Some (VDict [("uri", VUrl uri); ("mimeType", VStr "audio/wav");
                        ("blob", VStr "UklG")])
  | inr msg =>
      result
      = (Ok (failure ("Unexpected error downloading audio from " ++ url ++ ": " ++ msg)),
         issued)
  end.
Proof.
  cbv zeta.
  rewrite (download_with_response Sample.check_ok FileUrl
             (Sample.serve (Sample.response 200 "OK" [[x52; x49]; []; [x46]]))
             Sample.twilio_config "https://api.twilio.com/rec/RE1"
             (mkParseResult "https" "api.twilio.com" "/rec/RE1" "" "" "")
             (Some ("AC123", "tok456"))
             (Sample.response 200 "OK" [[x52; x49]; []; [x46]]));
    [| reflexivity | reflexivity | discriminate | reflexivity | reflexivity].
  cbv zeta.
  change (raise_for_status (Sample.response 200 "OK" [[x52; x49]; []; [x46]]))
    with (@Ok unit tt).
  cbv beta iota.
  change (stream_exn (Sample.response 200 "OK" [[x52; x49]; []; [x46]]))
    with (@None exn).
  cbv beta iota.
  change (List.concat (chunks (Sample.response 200 "OK" [[x52; x49]; []; [x46]])))
    with [x52; x49; x46].
  cbv beta iota. unfold file_url.
  change (FileUrl _) with (FileUrl "file://twilio_audio_RE1.wav").
  destruct (FileUrl "file://twilio_audio_RE1.wav") as [uri|msg].
  - repeat split.
  - reflexivity.
Qed.

(** C8, as the claim words it, fails twice: at status 404 the message does
    not begin with "HTTP request failed: " (the URL comes before the colon),
    and at status 600 the tool returns no "HTTP request failed" failure,
    whatever the URL validation answers (when the validation accepts the
    file URI it returns the embedded resource, with the bytes). *)
Lemma C8_counterexample :
  (~ exists detail,
       fst (download_twilio_audio Sample.check_ok Sample.file_url_ok
              (Sample.serve (Sample.response 404 "Not Found" [[x01]]))
              default_config "https://api.twilio.com/rec/RE1")
       = Ok (failure ("HTTP request failed: " ++ detail)))
  /\ (~ exists msg,
         fst (download_twilio_audio Sample.check_ok Sample.file_url_ok
                (Sample.serve (Sample.response 600 "Odd" [[x52; x49; x46]]))
                default_config "https://api.twilio.com/rec/RE1")
         = Ok (failure msg))
  /\ (forall FileUrl,
         ~ exists detail,
             fst (download_twilio_audio Sample.check_ok FileUrl
                    (Sample.serve (Sample.response 600 "Odd" [[x52; x49; x46]]))
                    default_config "https://api.twilio.com/rec/RE1")
             = Ok (failure ("HTTP request failed" ++ detail))).
Proof.
  split; [|split].
  - intros [m H]; vm_compute in H; discriminate H.
  - intros [m H]; vm_compute in H; discriminate H.
  - intros FileUrl [m H].
    rewrite (download_with_response Sample.check_ok FileUrl
               (Sample.serve (Sample.response 600 "Odd" [[x52; x49; x46]]))
               default_config "https://api.twilio.com/rec/RE1"
               (mkParseResult "https" "api.twilio.com" "/rec/RE1" "" "" "")
               None (Sample.response 600 "Odd" [[x52; x49; x46]])) in H;
      [| reflexivity | reflexivity | discriminate | reflexivity | reflexivity].
    cbn in H. unfold file_url in H.
    match type of H with
    | context [FileUrl ?u] => destruct (FileUrl u) as [uri|msg]
    end; cbn in H; discriminate H.
Qed.

(** The twilio pair is returned for "https://sub.twilio.com/x" although the
    table has an entry for "sub.twilio.com". *)
Lemma C2_witness :
  PyDict.mem (auth_credentials Sample.twilio_config) "sub.twilio.com" = true
  /\ get_auth_for_url Sample.check_ok Sample.twilio_config "https://sub.twilio.com/x"
     = Ok (Some ("AC123", "tok456")).
Proof.
  split; [reflexivity|].
  apply (C2_twilio_rule_wins Sample.check_ok Sample.twilio_config
           "https://sub.twilio.com/x"
           (mkParseResult "https" "sub.twilio.com" "/x" "" "" ""));
    [reflexivity | reflexivity | discriminate | discriminate].
Defined.



Lemma C5_witness :
  download_twilio_audio Sample.check_ok Sample.file_url_ok
    (Sample.serve (Sample.response 200 "OK" [[x01]]))
    default_config "ftp://example.com/a.wav"
  = (Ok (failure "Only HTTP and HTTPS URLs are supported"), []).
Proof.
  apply (C5_scheme_rejected_without_request Sample.check_ok Sample.file_url_ok
           (Sample.serve (Sample.response 200 "OK" [[x01]]))
           default_config "ftp://example.com/a.wav");
    reflexivity.
Defined.


Lemma C7_witness :
  download_twilio_audio Sample.check_ok Sample.file_url_ok
    (Sample.serve (Sample.response 200 "OK" [[]; []]))
    Sample.twilio_config "https://api.twilio.com/rec/RE1"
  = (Ok (failure "Downloaded file is empty"),
     [mkRequest "https://api.twilio.com/rec/RE1" (Some ("AC123", "tok456")) true 30]).
Proof.
  destruct (C7_empty_body_is_failure Sample.check_ok Sample.file_url_ok
              (Sample.serve (Sample.response 200 "OK" [[]; []]))
              Sample.twilio_config "https://api.twilio.com/rec/RE1"
              (mkParseResult "https" "api.twilio.com" "/rec/RE1" "" "" "")
              (Some ("AC123", "tok456"))
              (Sample.response 200 "OK" [[]; []])) as [H _];
    [reflexivity | reflexivity | discriminate | reflexivity | reflexivity
     | reflexivity | reflexivity | exact (H eq_refl)].
Defined.

Lemma C8_witness :
  download_twilio_audio Sample.check_ok Sample.file_url_ok
    (Sample.serve (Sample.response 404 "Not Found" [[x01]]))
    default_config "https://api.twilio.com/rec/RE1"
  = (Ok (failure ("HTTP request failed for https://api.twilio.com/rec/RE1: "
                    ++ "404 Client Error: Not Found for url: "
                    ++ "https://api.twilio.com/rec/RE1")),
     [mkRequest "https://api.twilio.com/rec/RE1" None true 30]).
Proof.
  apply (C8_http_error_status Sample.check_ok Sample.file_url_ok
           (Sample.serve (Sample.response 404 "Not Found" [[x01]]))
           default_config "https://api.twilio.com/rec/RE1"
           (mkParseResult "https" "api.twilio.com" "/rec/RE1" "" "" "")
           None (Sample.response 404 "Not Found" [[x01]]));
    [reflexivity | reflexivity | discriminate | reflexivity | reflexivity
     | simpl; lia].
Defined.


Lemma C10_witness :
  exists config,
    load_auth_from_env Sample.check_ok
      [("AUTH_X", "https://example.com|bob:secret")] default_config = Ok config
    /\ PyDict.keys (auth_credentials config) = ["example.com"]
    /\ PyDict.get (auth_credentials config) "example.com:8080" = None
    /\ get_auth_for_url Sample.check_ok config "https://example.com:8080/f" = Ok None.
Proof.
  apply (proj1 (C10_port_is_part_of_the_key Sample.check_ok) default_config
           "AUTH_X" "https://example.com" "bob" "secret"
           (mkParseResult "https" "example.com" "" "" "" "")
           "https://example.com:8080/f"
           (mkParseResult "https" "example.com:8080" "/f" "" "" "")
           "8080");
    solve [reflexivity | discriminate].
Defined.

(** ** Closed instances of the further properties *)

Lemma download_transport_error_witness :
  download_twilio_audio Sample.check_ok Sample.file_url_ok
    (Faults.refuse (RequestException "Connection refused"))
    default_config "https://example.com/a.wav"
  = (Ok (failure "HTTP request failed for https://example.com/a.wav: Connection refused"),
     [mkRequest "https://example.com/a.wav" None true 30]).
Proof.
  apply (download_transport_error Sample.check_ok Sample.file_url_ok
           (Faults.refuse (RequestException "Connection refused"))
           default_config "https://example.com/a.wav"
           (mkParseResult "https" "example.com" "/a.wav" "" "" "")
           None (RequestException "Connection refused"));
    solve [reflexivity | discriminate].
Defined.

Lemma download_stream_cut_witness :
  download_twilio_audio Sample.check_ok Sample.file_url_ok
    (Faults.answer (Faults.broken_stream (RequestException "Connection broken")))
    default_config "https://example.com/a.mp3"
  = (Ok (failure "HTTP request failed for https://example.com/a.mp3: Connection broken"),
     [mkRequest "https://example.com/a.mp3" None true 30]).
Proof.
  apply (download_stream_cut Sample.check_ok Sample.file_url_ok
           (Faults.answer (Faults.broken_stream (RequestException "Connection broken")))
           default_config "https://example.com/a.mp3"
           (mkParseResult "https" "example.com" "/a.mp3" "" "" "")
           None (Faults.broken_stream (RequestException "Connection broken"))
           (RequestException "Connection broken"));
    solve [reflexivity | discriminate].
Defined.

Lemma download_rejects_url_without_host_witness :
  download_twilio_audio Sample.check_ok Sample.file_url_ok
    (Sample.serve (Sample.response 200 "OK" [[x01]]))
    default_config "http:///recordings/RE1"
  = (Ok (failure "Invalid URL format: http:///recordings/RE1"), []).
Proof.
  apply (download_rejects_url_without_host Sample.check_ok Sample.file_url_ok
           (Sample.serve (Sample.response 200 "OK" [[x01]]))
           default_config false "/recordings/RE1").
  right. exists "/"%char, "recordings/RE1". split; reflexivity.
Defined.

Lemma download_reports_unbalanced_bracket_witness :
  download_twilio_audio Sample.check_ok Sample.file_url_ok
    (Sample.serve (Sample.response 200 "OK" [[x01]]))
    default_config "http://[::1/x"
  = (Ok (failure "Failed to parse URL http://[::1/x: Invalid IPv6 URL"), []).
Proof.
  apply (download_reports_unbalanced_bracket Sample.check_ok Sample.file_url_ok
           (Sample.serve (Sample.response 200 "OK" [[x01]]))
           default_config false "[::1/x").
  discriminate.
Defined.

Lemma load_auth_from_env_keeps_settings_witness :
  let config :=
    set_auth_credentials Sample.twilio_config
      (PyDict.set (auth_credentials Sample.twilio_config) "example.com"
         [("username", "bob"); ("password", "secret");
          ("base_url", "https://example.com")]) in
  load_auth_from_env Sample.check_ok Sample.environ Sample.twilio_config = Ok config
  /\ host config = "localhost"
  /\ port config = 8080%Z
  /\ log_level config = "INFO"
  /\ twilio_account_sid config = "AC123"
  /\ twilio_auth_token config = "tok456"
  /\ twilio_base_url config = "https://api.twilio.com".
Proof.
  cbv zeta. split; [reflexivity|].
  apply (load_auth_from_env_keeps_settings Sample.check_ok Sample.environ
           Sample.twilio_config).
  reflexivity.
Defined.

Lemma load_auth_from_env_keys_witness :
  exists config,
    load_auth_from_env Sample.check_ok
      (Sample.environ ++ [("AUTH_Z", "https://EXAMPLE.com|eve:pw")])%list
      Sample.twilio_config = Ok config
    /\ NoDup (PyDict.keys (auth_credentials config))
    /\ Forall (fun k => PyStr.lower k = k) (PyDict.keys (auth_credentials config))
    /\ exists added,
         PyDict.keys (auth_credentials config) = ("sub.twilio.com" :: added)%list.
Proof.
  eexists. split; [reflexivity|].
  apply (load_auth_from_env_keys Sample.check_ok
           (Sample.environ ++ [("AUTH_Z", "https://EXAMPLE.com|eve:pw")])%list
           Sample.twilio_config).
  - reflexivity.
  - repeat constructor. simpl. tauto.
  - repeat constructor.
Defined.

Lemma get_auth_for_url_answers_after_load_witness :
  exists config auth,
    load_auth_from_env Sample.check_ok Sample.environ default_config = Ok config
    /\ get_auth_for_url Sample.check_ok config "https://example.com/file" = Ok auth.
Proof.
  eexists.
  destruct (get_auth_for_url_answers_after_load Sample.check_ok Sample.environ
              default_config _ eq_refl (Forall_nil _)) as [_ H].
  destruct (H "https://example.com/file"
              (mkParseResult "https" "example.com" "/file" "" "" "") eq_refl)
    as [auth Ha].
  exists auth. split; [reflexivity | exact Ha].
Defined.

Lemma load_auth_from_env_raises_on_bad_base_witness :
  load_auth_from_env Sample.check_ok
    [("AUTH_X", "https://example.com|bob:secret");
     ("AUTH_BAD", "http://[::1|u:p");
     ("AUTH_Z", "https://z.example|a:b")]
    default_config
  = Raise (ValueError "Invalid IPv6 URL").
Proof.
  apply (load_auth_from_env_raises_on_bad_base Sample.check_ok
           [("AUTH_X", "https://example.com|bob:secret")]
           [("AUTH_Z", "https://z.example|a:b")]
           default_config
           (set_auth_credentials default_config
              [("example.com",
                [("username", "bob"); ("password", "secret");
                 ("base_url", "https://example.com")])])
           "AUTH_BAD" "http://[::1" "u" "p" (ValueError "Invalid IPv6 URL"));
    reflexivity.
Defined.

Lemma load_auth_entry_leaves_other_hosts_witness :
  exists config,
    load_auth_entry Sample.check_ok Sample.twilio_config
      ("AUTH_X", "https://example.com|bob:secret") = Ok config
    /\ get_auth_for_url Sample.check_ok config "https://other.example/x"
       = get_auth_for_url Sample.check_ok Sample.twilio_config "https://other.example/x".
Proof.
  apply (load_auth_entry_leaves_other_hosts Sample.check_ok Sample.twilio_config
           "AUTH_X" "https://example.com" "bob" "secret"
           (mkParseResult "https" "example.com" "" "" "" "")
           "https://other.example/x"
           (mkParseResult "https" "other.example" "/x" "" "" ""));
    solve [reflexivity | discriminate].
Defined.

Lemma get_auth_for_url_sources_witness :
  exists parsed,
    urlparse Sample.check_ok "https://sub.twilio.com/x" = Ok parsed
    /\ (("AC123" = twilio_account_sid Sample.twilio_config
         /\ "tok456" = twilio_auth_token Sample.twilio_config
         /\ "AC123" <> EmptyString /\ "tok456" <> EmptyString
         /\ PyStr.contains "twilio.com" (PyStr.lower (netloc parsed)) = true)
        \/ exists cred,
             PyDict.get (auth_credentials Sample.twilio_config)
               (PyStr.lower (netloc parsed)) = Some cred
             /\ PyDict.get cred "username" = Some "AC123"
             /\ PyDict.get cred "password" = Some "tok456").
Proof.
  apply (get_auth_for_url_sources Sample.check_ok Sample.twilio_config
           "https://sub.twilio.com/x" "AC123" "tok456").
  reflexivity.
Defined.

Lemma get_auth_for_url_half_configured_witness :
  get_auth_for_url Sample.check_ok default_config "https://api.twilio.com/x" = Ok None.
Proof.
  apply (get_auth_for_url_half_configured Sample.check_ok default_config
           "https://api.twilio.com/x"
           (mkParseResult "https" "api.twilio.com" "/x" "" "" ""));
    [left; reflexivity | reflexivity | reflexivity].
Defined.

Lemma get_auth_for_url_by_netloc_alone_witness :
  get_auth_for_url Sample.check_ok Sample.twilio_config "https://[FE80::1]:8443/a/b?c"
  = get_auth_for_url Sample.check_ok Sample.twilio_config "http://[fe80::1]:8443"
  /\ get_auth_for_url Sample.check_ok Sample.twilio_config "https://Sub.Twilio.COM/a/b?c"
     = get_auth_for_url Sample.check_ok Sample.twilio_config "http://sub.twilio.com".
Proof.
  split.
  - apply (proj1 (get_auth_for_url_by_netloc_alone Sample.check_ok)
             Sample.twilio_config
             "https://[FE80::1]:8443/a/b?c" "http://[fe80::1]:8443"
             (mkParseResult "https" "[FE80::1]:8443" "/a/b" "" "c" "")
             (mkParseResult "http" "[fe80::1]:8443" "" "" "" ""));
      reflexivity.
  - apply (proj2 (get_auth_for_url_by_netloc_alone Sample.check_ok)
             Sample.twilio_config
             true false "Sub.Twilio.COM" "sub.twilio.com" "/a/b?c" "");
      try reflexivity.
    + right. exists "/"%char, "a/b?c". split; reflexivity.
    + left. reflexivity.
Defined.

(** Two configurations with different twilio secrets and a remote side that
    answers both alike. *)
Lemma download_result_depends_on_auth_only_witness :
  get_auth_for_url Sample.check_ok Sample.twilio_config "https://sub.twilio.com/x"
  <> get_auth_for_url Sample.check_ok Sample.other_config "https://sub.twilio.com/x"
  /\ fst (download_twilio_audio Sample.check_ok Sample.file_url_ok
            (Sample.serve (Sample.response 200 "OK" [[x52; x49; x46]]))
            Sample.twilio_config "https://sub.twilio.com/x")
     = fst (download_twilio_audio Sample.check_ok Sample.file_url_ok
              (Sample.serve (Sample.response 200 "OK" [[x52; x49; x46]]))
              Sample.other_config "https://sub.twilio.com/x").
Proof.
  split; [discriminate|].
  apply (download_result_depends_on_auth_only Sample.check_ok Sample.file_url_ok
           (Sample.serve (Sample.response 200 "OK" [[x52; x49; x46]]))
           Sample.twilio_config Sample.other_config "https://sub.twilio.com/x"
           (Some ("AC123", "tok456")) (Some ("AC999", "zzz")));
    reflexivity.
Defined.

Lemma read_chunks_invariant_witness :
  snd (read_chunks [[x01]; []; [x02; x03]] ([], 0%Z)) = 3%Z
  /\ fst (read_chunks [[x01]; []; [x02; x03]] ([], 0%Z)) = [x01; x02; x03]
  /\ read_chunks [[x01]; []; [x02; x03]] ([], 0%Z)
     = read_chunks [[x01; x02]; [x03]] ([], 0%Z).
Proof.
  destruct (read_chunks_invariant [[x01]; []; [x02; x03]] [[x01; x02]; [x03]]
              ([], 0%Z) eq_refl) as (H1 & H2 & H3).
  split; [rewrite H1, H2; reflexivity|].
  split; [rewrite H2; reflexivity|].
  apply H3. reflexivity.
Defined.

Lemma download_without_content_type_witness :
  download_twilio_audio Sample.check_ok Sample.file_url_ok
    (Faults.answer Faults.bare_response) default_config "https://example.com/a"
  = (Ok (EmbeddedResource "file://twilio_audio_a.bin" "UklG" "application/octet-stream"),
     [mkRequest "https://example.com/a" None true 30]).
Proof.
  apply (download_without_content_type Sample.check_ok Sample.file_url_ok
           (Faults.answer Faults.bare_response) default_config "https://example.com/a"
           (mkParseResult "https" "example.com" "/a" "" "" "")
           None Faults.bare_response "file://twilio_audio_a.bin");
    try solve [reflexivity | discriminate].
  repeat constructor. discriminate.
Defined.

Lemma resolver_ignores_case_parameters_and_space_witness :
  get_file_extension_from_content_type "Audio/WAV; codec=1"
  = get_file_extension_from_content_type "Audio/WAV"
  /\ get_file_extension_from_content_type " Audio/WAV"
     = get_file_extension_from_content_type "Audio/WAV".
Proof.
  destruct (resolver_ignores_case_parameters_and_space "Audio/WAV") as (_ & H2 & H3).
  split.
  - apply (H2 " codec=1"). reflexivity.
  - apply (H3 " "%char). reflexivity.
Defined.

Lemma resolver_extensions_are_the_reported_formats_witness :
  In "ogg" supported_audio_formats
  /\ exists content_type, get_file_extension_from_content_type content_type = ".ogg".
Proof.
  assert (H : In "ogg" supported_audio_formats).
  { simpl. do 4 right. left. reflexivity. }
  split; [exact H|].
  apply (proj2 resolver_extensions_are_the_reported_formats "ogg" H).
Defined.

Lemma download_returns_the_buffered_bytes_witness :
  download_twilio_audio Sample.check_ok Sample.file_url_ok
    (Sample.serve
       {| status_code := 200; reason := "OK";
          resp_url := "https://example.com/rec/RE1.mp3";
          headers := [("content-type", "Audio/MPEG; rate=8000")];
          chunks := [[x52; x49]; []; [x46]]; stream_exn := None |})
    default_config "https://example.com/rec/RE1.mp3?x=1"
  = (Ok (EmbeddedResource "file://twilio_audio_RE1.mp3.mp3" "UklG"
           "Audio/MPEG; rate=8000"),
     [mkRequest "https://example.com/rec/RE1.mp3?x=1" None true 30]).
Proof.
  apply (download_returns_the_buffered_bytes Sample.check_ok Sample.file_url_ok
           (Sample.serve
              {| status_code := 200; reason := "OK";
                 resp_url := "https://example.com/rec/RE1.mp3";
                 headers := [("content-type", "Audio/MPEG; rate=8000")];
                 chunks := [[x52; x49]; []; [x46]]; stream_exn := None |})
           default_config "https://example.com/rec/RE1.mp3?x=1"
           (mkParseResult "https" "example.com" "/rec/RE1.mp3" "" "x=1" "")
           None
           {| status_code := 200; reason := "OK";
              resp_url := "https://example.com/rec/RE1.mp3";
              headers := [("content-type", "Audio/MPEG; rate=8000")];
              chunks := [[x52; x49]; []; [x46]]; stream_exn := None |}
           "file://twilio_audio_RE1.mp3.mp3");
    solve [reflexivity | discriminate].
Defined.

Lemma reported_domains_have_credentials_witness :
  exists config u p,
    load_auth_from_env Sample.check_ok Sample.environ default_config = Ok config
    /\ field (get_server_config config) "additional_auth_domains"
       = Some (VList [VStr "example.com"])
    /\ get_auth_for_url Sample.check_ok config "https://Example.com/file"
       = Ok (Some (u, p)).
Proof.
  eexists.
  destruct (reported_domains_have_credentials Sample.check_ok Sample.environ
              default_config _ eq_refl (Forall_nil _)
              "example.com" "https://Example.com/file"
              (mkParseResult "https" "Example.com" "/file" "" "" "")
              (or_introl eq_refl) eq_refl eq_refl) as (u & p & H).
  exists u, p. split; [reflexivity|]. split; [reflexivity | exact H].
Defined.

Lemma download_requests_every_plain_url_witness :
  exists auth,
    get_auth_for_url Sample.check_ok Sample.twilio_config
      "https://api.twilio.com/rec/RE1" = Ok auth
    /\ snd (download_twilio_audio Sample.check_ok Sample.file_url_ok
              (Faults.refuse (RequestException "timed out"))
              Sample.twilio_config "https://api.twilio.com/rec/RE1")
       = [mkRequest "https://api.twilio.com/rec/RE1" auth true 30].
Proof.
  apply (download_requests_every_plain_url Sample.check_ok Sample.file_url_ok
           (Faults.refuse (RequestException "timed out"))
           Sample.twilio_config true "api.twilio.com" "/rec/RE1").
  - repeat constructor.
  - discriminate.
  - reflexivity.
  - reflexivity.
  - right. exists "/"%char, "rec/RE1". split; reflexivity.
Defined.

Lemma load_auth_entry_skips_base_without_slash_witness :
  load_auth_entry Sample.check_ok default_config ("AUTH_X", "example.com:8080|bob:secret")
  = Ok default_config.
Proof.
  apply (load_auth_entry_skips_base_without_slash Sample.check_ok default_config
           "AUTH_X" "example.com:8080" "bob:secret");
    reflexivity.
Defined.
